(** * Response decoding of the Marantz SR6009 web remote

    A shallow embedding of [marantz_remote/response_parser.py]: the stateful
    on-screen-display parser [OsdParser], the shared half-step conversion
    [_parse_value_with_half_step], the sub-parsers of the dispatch table
    [PARSER_CONFIG] and the master entry point [parse_response].

    Modelling conventions.
    - A Python [str] is a Rocq [string], one [ascii] per code point: the
      model covers the decoded text whose code points are all below 256.
      Text decoded with the latin-1 fallback always qualifies; text decoded
      as UTF-8 qualifies only when it has no code point from U+0100 on, and
      then a character of the model is a decoded code point, not a byte of
      the packet (the byte level is only modelled for the line reassembly
      of the client).
    - Python [float] values and [time.time()] timestamps are exact rationals
      [Q]; [float(n) / 10.0] is [n # 10].  The tuner frequency, whose
      formatting shows the rounding, is the exception: it is computed with
      binary64 rounding (see [int_to_float]).  Within one call of
      [OsdParser.parse] both readings of the clock are the same [now].
    - The parser's [self.context] dictionary is a record; the shared module
      level instance [_osd_parser] is passed explicitly as state.
    - A Python exception escaping a sub-parser is the [Raise] outcome. *)

From Stdlib Require Import Bool ZArith QArith List Ascii String Lia DecimalString.
Import ListNotations.
Open Scope string_scope.

(** ** Characters and strings *)

Definition code (c : ascii) : nat := nat_of_ascii c.

Definition chr (n : nat) : ascii := ascii_of_nat n.

(** One-character string. *)
Definition str1 (c : ascii) : string := String c EmptyString.

(** The class [[\x00-\x1F\x7F]] removed by [_clean_osd_text]. *)
Definition is_control (c : ascii) : bool :=
  Nat.ltb (code c) 32 || Nat.eqb (code c) 127.

(** [str.isspace] on a code point below 256 (also the class [\s] of [re]). *)
Definition py_isspace (c : ascii) : bool :=
  let n := code c in
  (Nat.leb 9 n && Nat.leb n 13) || (Nat.leb 28 n && Nat.leb n 32)
  || Nat.eqb n 133 || Nat.eqb n 160.

(** The class [\d] of [re] on a code point below 256. *)
Definition is_digit (c : ascii) : bool :=
  Nat.leb 48 (code c) && Nat.leb (code c) 57.

(** [str.isdigit] on one code point below 256: the ASCII digits and the
    superscripts two, three and one. *)
Definition py_isdigit_char (c : ascii) : bool :=
  is_digit c || Nat.eqb (code c) 178 || Nat.eqb (code c) 179
  || Nat.eqb (code c) 185.

Definition is_upper (c : ascii) : bool :=
  Nat.leb 65 (code c) && Nat.leb (code c) 90.

(** [str.lower] on one code point below 256. *)
Definition lower_char (c : ascii) : ascii :=
  let n := code c in
  if is_upper c || (Nat.leb 192 n && Nat.leb n 222 && negb (Nat.eqb n 215))
  then chr (n + 32) else c.

Fixpoint py_lower (s : string) : string :=
  match s with
  | EmptyString => EmptyString
  | String c s' => String (lower_char c) (py_lower s')
  end.

Fixpoint startswith (p s : string) : bool :=
  match p, s with
  | EmptyString, _ => true
  | String a p', String b s' => Ascii.eqb a b && startswith p' s'
  | String _ _, EmptyString => false
  end.

(** [s[len(p):]] when [s] starts with [p]. *)
Fixpoint strip_prefix (p s : string) : option string :=
  match p, s with
  | EmptyString, _ => Some s
  | String a p', String b s' => if Ascii.eqb a b then strip_prefix p' s' else None
  | String _ _, EmptyString => None
  end.

Fixpoint str_forall (f : ascii -> bool) (s : string) : bool :=
  match s with
  | EmptyString => true
  | String c s' => f c && str_forall f s'
  end.

Fixpoint str_filter (f : ascii -> bool) (s : string) : string :=
  match s with
  | EmptyString => EmptyString
  | String c s' => if f c then String c (str_filter f s') else str_filter f s'
  end.

Fixpoint str_mem (c : ascii) (s : string) : bool :=
  match s with
  | EmptyString => false
  | String d s' => Ascii.eqb c d || str_mem c s'
  end.

(** [str.lstrip()] and [str.rstrip()] with no argument. *)
Fixpoint py_lstrip (s : string) : string :=
  match s with
  | EmptyString => EmptyString
  | String c s' => if py_isspace c then py_lstrip s' else s
  end.

Fixpoint py_rstrip (s : string) : string :=
  match s with
  | EmptyString => EmptyString
  | String c s' =>
      match py_rstrip s' with
      | EmptyString => if py_isspace c then EmptyString else str1 c
      | r => String c r
      end
  end.

Definition py_strip (s : string) : string := py_rstrip (py_lstrip s).

(** [str.lstrip(ch)] with a one-character argument. *)
Fixpoint lstrip_char (ch : ascii) (s : string) : string :=
  match s with
  | EmptyString => EmptyString
  | String c s' => if Ascii.eqb c ch then lstrip_char ch s' else s
  end.

(** [s[1:]]. *)
Definition tail1 (s : string) : string :=
  match s with
  | EmptyString => EmptyString
  | String _ s' => s'
  end.

(** [int(s)] (and [float(s)]) on a string of ASCII digits. *)
Fixpoint digits_value_acc (acc : Z) (s : string) : Z :=
  match s with
  | EmptyString => acc
  | String c s' => digits_value_acc (10 * acc + (Z.of_nat (code c) - 48))%Z s'
  end.

Definition digits_value (s : string) : Z := digits_value_acc 0 s.

Definition all_digits (s : string) : bool :=
  negb (String.eqb s EmptyString) && str_forall is_digit s.

(** ** Events *)

(** A value of an event payload. *)
Inductive value :=
| VStr (s : string)
| VInt (z : Z)
| VNum (q : Q)
| VBool (b : bool)
| VNull.

Definition payload := list (string * value).

(** A parsed event [(event_name, payload)]. *)
Definition event := (string * payload)%type.

(** ** The on-screen-display parser [OsdParser] *)

Inductive mode := MODE_NOW_PLAYING | MODE_MENU | MODE_CONTEXT_MENU.

Definition mode_eqb (a b : mode) : bool :=
  match a, b with
  | MODE_NOW_PLAYING, MODE_NOW_PLAYING
  | MODE_MENU, MODE_MENU
  | MODE_CONTEXT_MENU, MODE_CONTEXT_MENU => true
  | _, _ => false
  end.

Definition NOW_PLAYING_CHAR : ascii := chr 1.
Definition CONTEXT_MENU_CHAR : ascii := chr 2.
Definition SELECTED_ITEM_CHAR : ascii := chr 4.
Definition MENU_ITEM_CHAR : ascii := chr 5.
Definition PLAYING_ITEM_CHAR : ascii := "$"%char.
Definition SPECIAL_MENU_ITEM_CHARS : list ascii := [chr 6; chr 10; chr 14].

(** [self.context]. *)
Record osd_context := mk_context {
  screen_mode : option mode;
  last_update_time : Q;
  screen_title : string;
  cursor_line : Z;
  menu_items : list (Z * string)
}.

(** An [OsdParser] instance. *)
Record OsdParser := mk_osd {
  context_timeout : Q;
  context : osd_context;
  pending_selected_line : option Z
}.

Definition set_context (p : OsdParser) (c : osd_context) : OsdParser :=
  mk_osd (context_timeout p) c (pending_selected_line p).

Definition set_pending (p : OsdParser) (v : option Z) : OsdParser :=
  mk_osd (context_timeout p) (context p) v.

Definition set_mode (c : osd_context) (m : option mode) : osd_context :=
  mk_context m (last_update_time c) (screen_title c) (cursor_line c) (menu_items c).

Definition set_time (c : osd_context) (t : Q) : osd_context :=
  mk_context (screen_mode c) t (screen_title c) (cursor_line c) (menu_items c).

Definition set_title (c : osd_context) (s : string) : osd_context :=
  mk_context (screen_mode c) (last_update_time c) s (cursor_line c) (menu_items c).

Definition set_cursor (c : osd_context) (n : Z) : osd_context :=
  mk_context (screen_mode c) (last_update_time c) (screen_title c) n (menu_items c).

Definition _create_default_context : osd_context :=
  mk_context None 0 "" (-1)%Z [].

(** [OsdParser(context_timeout_seconds)]; the default timeout is 5. *)
Definition new_OsdParser (timeout : Q) : OsdParser :=
  mk_osd timeout _create_default_context None.

Definition _clean_osd_text (s : string) : string :=
  py_strip (str_filter (fun c => negb (is_control c)) s).

Definition _reset_context_if_timed_out (p : OsdParser) (now : Q) : OsdParser :=
  let c := context p in
  let c1 := if negb (Qle_bool (now - last_update_time c) (context_timeout p))
            then set_mode c None else c in
  set_context p (set_time c1 now).

(** The mode a title line sets. *)
Definition mode_of_title (text : string) : mode :=
  if String.eqb (py_lower text) "now playing" then MODE_NOW_PLAYING
  else if String.eqb text "Menu" then MODE_CONTEXT_MENU
  else MODE_MENU.

Definition _handle_title_line (p : OsdParser) (now : Q) (text : string)
  : event * OsdParser :=
  let p1 := if negb (String.eqb text (screen_title (context p)))
            then set_pending (set_context p (set_title _create_default_context text)) None
            else p in
  let c2 := set_time (context p1) now in
  let c3 := set_mode c2 (Some (mode_of_title text)) in
  (("osd_title_update", [("text", VStr text)]), set_context p1 c3).

(** [re.search(r'(\d{1,2}:\d{2}(?::\d{2})?)', text)]: the match starting at
    the current position, then the leftmost one. *)
Definition time_tail (s : string) : option string :=
  match s with
  | String c (String d1 (String d2 rest)) =>
      if Ascii.eqb c ":" && is_digit d1 && is_digit d2 then
        let base := String c (str1 d1 ++ str1 d2) in
        match rest with
        | String c' (String e1 (String e2 _)) =>
            if Ascii.eqb c' ":" && is_digit e1 && is_digit e2
            then Some (base ++ String c' (str1 e1 ++ str1 e2))
            else Some base
        | _ => Some base
        end
      else None
  | _ => None
  end.

Definition time_match_at (s : string) : option string :=
  let one :=
    match s with
    | String a s1 =>
        if is_digit a then option_map (fun t => String a t) (time_tail s1) else None
    | _ => None
    end in
  match s with
  | String a (String b s2) =>
      if is_digit a && is_digit b then
        match time_tail s2 with
        | Some t => Some (String a (String b t))
        | None => one
        end
      else one
  | _ => one
  end.

Fixpoint search_time (s : string) : option string :=
  match time_match_at s with
  | Some m => Some m
  | None => match s with
            | EmptyString => None
            | String _ s' => search_time s'
            end
  end.

(** [re.search(r'(\d{1,3})%', text)]. *)
Definition percent_match_at (s : string) : option string :=
  match s with
  | String a (String b (String c (String "%" _))) =>
      if is_digit a && is_digit b && is_digit c then Some (String a (String b (str1 c)))
      else None
  | _ => None
  end.

Definition percent_match_at2 (s : string) : option string :=
  match s with
  | String a (String b (String "%" _)) =>
      if is_digit a && is_digit b then Some (String a (str1 b)) else None
  | _ => None
  end.

Definition percent_match_at1 (s : string) : option string :=
  match s with
  | String a (String "%" _) => if is_digit a then Some (str1 a) else None
  | _ => None
  end.

Fixpoint search_percent (s : string) : option string :=
  match percent_match_at s with
  | Some m => Some m
  | None =>
    match percent_match_at2 s with
    | Some m => Some m
    | None =>
      match percent_match_at1 s with
      | Some m => Some m
      | None => match s with
                | EmptyString => None
                | String _ s' => search_percent s'
                end
      end
    end
  end.

Definition _handle_now_playing_line (line : Z) (raw_text : string) : option event :=
  let np := startswith (str1 NOW_PLAYING_CHAR) raw_text in
  if (line =? 1)%Z && np then
    Some ("now_playing_title_update", [("text", VStr (_clean_osd_text (tail1 raw_text)))])
  else if (line =? 2)%Z && np then
    Some ("now_playing_artist_update", [("text", VStr (_clean_osd_text (tail1 raw_text)))])
  else
  let r3 :=
    if (line =? 3)%Z && np then
      let text := _clean_osd_text (tail1 raw_text) in
      if negb (String.eqb text "") then Some ("now_playing_samplerate_update", [("text", VStr text)])
      else None
    else None in
  match r3 with
  | Some e => Some e
  | None =>
  let r4 :=
    if (line =? 4)%Z then
      let text := _clean_osd_text (if np then tail1 raw_text else raw_text) in
      if negb (String.eqb text "") then Some ("now_playing_album_update", [("text", VStr text)])
      else None
    else None in
  match r4 with
  | Some e => Some e
  | None =>
    if (line =? 5)%Z then
      let text := _clean_osd_text raw_text in
      let time_val := search_time text in
      let percent_val := option_map digits_value (search_percent text) in
      match time_val, percent_val with
      | None, None => None
      | _, _ =>
        Some ("play_progress_update",
              [("time", match time_val with Some t => VStr t | None => VNull end);
               ("percent", match percent_val with Some z => VInt z | None => VNull end)])
      end
    else None
  end
  end.

Definition _handle_menu_line (p : OsdParser) (line : Z) (raw_text : string)
  : option event * OsdParser :=
  let is_selected := startswith (str1 SELECTED_ITEM_CHAR) raw_text in
  let is_menu_item :=
    startswith (str1 MENU_ITEM_CHAR) raw_text
    || startswith (str1 CONTEXT_MENU_CHAR) raw_text
    || match raw_text with
       | String c _ => existsb (Ascii.eqb c) SPECIAL_MENU_ITEM_CHARS
       | EmptyString => false
       end in
  let text := _clean_osd_text (tail1 raw_text) in
  let p1 := if is_selected then set_context p (set_cursor (context p) line) else p in
  if is_menu_item || is_selected then
    (Some ("osd_menu_item_update",
           [("line", VInt line); ("text", VStr text); ("is_selected", VBool is_selected)]), p1)
  else (None, p1).

Definition _handle_context_menu_line (line : Z) (raw_text : string) : option event :=
  if (1 <=? line)%Z && (line <? 8)%Z then
    let is_selected := negb (startswith (str1 CONTEXT_MENU_CHAR) raw_text) in
    let text := _clean_osd_text raw_text in
    if negb (String.eqb text "") then
      Some ("osd_context_menu_item_update",
            [("line", VInt line); ("text", VStr text); ("is_selected", VBool is_selected)])
    else None
  else None.

(** The [re.match] of [NSE], one digit and the rest of the line (the pattern
    is compiled with [re.DOTALL], so the rest may hold any character): the
    slot digit and the rest of the line. *)
Definition match_nse (response : string) : option (Z * string) :=
  match strip_prefix "NSE" response with
  | Some (String d raw_text) =>
      if is_digit d then Some (Z.of_nat (code d) - 48, raw_text)%Z else None
  | _ => None
  end.

Definition mode_in_menus (m : option mode) : bool :=
  match m with
  | Some MODE_MENU | Some MODE_CONTEXT_MENU => true
  | _ => false
  end.

(** Mode detection from the first content line when no title set one. *)
Definition infer_mode (raw_text : string) : option mode :=
  if startswith (str1 NOW_PLAYING_CHAR) raw_text then Some MODE_NOW_PLAYING
  else if startswith (str1 MENU_ITEM_CHAR) raw_text
          || startswith (str1 SELECTED_ITEM_CHAR) raw_text then Some MODE_MENU
  else if startswith (str1 CONTEXT_MENU_CHAR) raw_text
          || startswith (str1 (chr 10)) raw_text then Some MODE_CONTEXT_MENU
  else None.

(** The part of [OsdParser.parse] after the fragment check: lines of the form
    [NSE<digit><text>]. *)
Definition osd_parse_nse (p : OsdParser) (now : Q) (response : string)
  : option event * OsdParser :=
  match match_nse response with
  | None => (None, p)
  | Some (line, raw_text) =>
    let p1 := _reset_context_if_timed_out p now in
    if (line =? 0)%Z then
      let (e, p2) := _handle_title_line p1 now (_clean_osd_text raw_text) in
      (Some e, p2)
    else if (line =? 8)%Z then
      let text := _clean_osd_text (lstrip_char PLAYING_ITEM_CHAR raw_text) in
      if negb (String.eqb text "") then (Some ("station_info_update", [("text", VStr text)]), p1)
      else (None, p1)
    else if mode_in_menus (screen_mode (context p1)) && String.eqb (py_strip raw_text) ""
    then (None, set_pending p1 (Some line))
    else
      let p2 := match screen_mode (context p1) with
                | None => set_context p1 (set_mode (context p1) (infer_mode raw_text))
                | Some _ => p1
                end in
      match screen_mode (context p2) with
      | Some MODE_NOW_PLAYING => (_handle_now_playing_line line raw_text, p2)
      | Some MODE_MENU => _handle_menu_line p2 line raw_text
      | Some MODE_CONTEXT_MENU => (_handle_context_menu_line line raw_text, p2)
      | None => (None, p2)
      end
  end.

(** [OsdParser.parse]: the event and the parser state after the call. *)
Definition osd_parse (p : OsdParser) (now : Q) (response : string)
  : option event * OsdParser :=
  match pending_selected_line p with
  | Some line =>
    if negb (startswith "NSE" response) then
      let text := _clean_osd_text response in
      let p1 := set_pending p None in
      let event_name :=
        match screen_mode (context p1) with
        | Some MODE_CONTEXT_MENU => "osd_context_menu_item_update"
        | _ => "osd_menu_item_update"
        end in
      (Some (event_name,
             [("line", VInt line); ("text", VStr text); ("is_selected", VBool true)]), p1)
    else osd_parse_nse p now response
  | None => osd_parse_nse p now response
  end.

(** ** Regular-expression building blocks of the sub-parsers

    Each matcher takes the rest of the line and follows Python's [re]
    semantics (greedy quantifiers with backtracking, alternatives tried left
    to right).  Python's [$] (without [re.MULTILINE]) matches at the end of
    the string or just before a final newline. *)

Definition py_eol (r : string) : bool :=
  String.eqb r "" || String.eqb r (str1 (chr 10)).

(** The longest prefix of [s] whose characters satisfy [f], and the rest. *)
Fixpoint span (f : ascii -> bool) (s : string) : string * string :=
  match s with
  | EmptyString => (EmptyString, EmptyString)
  | String c s' =>
      if f c then let (a, b) := span f s' in (String c a, b)
      else (EmptyString, s)
  end.

(** A one-or-more class repetition followed by [$], e.g. [(\d+)$]. *)
Definition class_plus_eol (f : ascii -> bool) (r : string) : option string :=
  let (m, rest) := span f r in
  if negb (String.eqb m "") && py_eol rest then Some m else None.

Definition digits_eol : string -> option string := class_plus_eol is_digit.

(** A captured [.] repeated zero or more times, then [$], without
    [re.DOTALL]: [.] matches every character but a newline. *)
Definition dot_star_eol (r : string) : option string :=
  let (m, rest) := span (fun c => negb (Ascii.eqb c (chr 10))) r in
  if py_eol rest then Some m else None.

(** [\s?] followed by [k]. *)
Definition opt_space {A} (k : string -> option A) (r : string) : option A :=
  match r with
  | String c r' =>
      if py_isspace c then
        match k r' with
        | Some a => Some a
        | None => k r
        end
      else k r
  | EmptyString => k r
  end.

(** [\s] followed by [k]. *)
Definition req_space {A} (k : string -> option A) (r : string) : option A :=
  match r with
  | String c r' => if py_isspace c then k r' else None
  | EmptyString => None
  end.

(** [(A|B|...)] followed by the rest of the pattern [k]: the first
    alternative for which the whole pattern matches. *)
Fixpoint alt_then (alts : list string) (k : string -> bool) (r : string) : option string :=
  match alts with
  | [] => None
  | a :: alts' =>
      match strip_prefix a r with
      | Some r' => if k r' then Some a else alt_then alts' k r
      | None => alt_then alts' k r
      end
  end.

Definition alt_eol (alts : list string) : string -> option string :=
  alt_then alts py_eol.

(** The pattern [prefix] then [k], anchored at the start. *)
Definition re_prefix {A} (prefix : string) (k : string -> option A) (r : string) : option A :=
  match strip_prefix prefix r with
  | Some rest => k rest
  | None => None
  end.

Fixpoint assoc (k : string) (l : list (string * string)) : option string :=
  match l with
  | [] => None
  | (k', v) :: l' => if String.eqb k k' then Some v else assoc k l'
  end.

(** [str(n)] for an [int]. *)
Definition Z_to_dec (n : Z) : string := NilEmpty.string_of_int (Z.to_int n).

(** ** Sub-parsers *)

(** A Python call that returns [a] or raises an exception. *)
Inductive outcome (A : Type) :=
| Ret (a : A)
| Raise (exn : string).
Arguments Ret {A} a.
Arguments Raise {A} exn.

(** [int(s)] on a string of ASCII digits.  CPython (3.11 on, and the
    security releases of 3.7 to 3.10) refuses a string of more than 4300
    digits with [ValueError] unless [sys.set_int_max_str_digits] raises the
    limit, which this program never calls. *)
Definition py_int_digits (s : string) : outcome Z :=
  if Nat.ltb 4300 (String.length s) then Raise "ValueError" else Ret (digits_value s).

(** A payload parser whose one [int] conversion may raise. *)
Definition int_payload (d : string) (f : Z -> option payload) : outcome (option payload) :=
  match py_int_digits d with
  | Ret n => Ret (f n)
  | Raise x => Raise x
  end.

(** [_parse_value_with_half_step]: [float(s) / 10.0] for a 3-character
    string, [float(s)] otherwise.  Every caller passes a [\d+] capture. *)
Definition _parse_value_with_half_step (raw_val_str : string) : Q :=
  if Nat.eqb (String.length raw_val_str) 3
  then inject_Z (digits_value raw_val_str) / 10
  else inject_Z (digits_value raw_val_str).

Definition _create_on_off_parser (prefix on_val off_val : string) (response : string)
  : option payload :=
  match strip_prefix prefix response with
  | None => None
  | Some state_part =>
      if String.eqb state_part on_val then Some [("state", VStr "on")]
      else if String.eqb state_part off_val then
        Some [("state", VStr (if String.eqb off_val "STANDBY" then "standby" else "off"))]
      else None
  end.

(** [_create_multi_state_parser]: [pattern] is the compiled regex, giving
    its first group when it matches. *)
Definition _create_multi_state_parser (pattern : string -> option string)
  (normalization_map : list (string * string)) (response : string) : option payload :=
  match pattern response with
  | None => None
  | Some g =>
      let state := py_lower g in
      let state := match assoc state normalization_map with
                   | Some v => v
                   | None => state
                   end in
      Some [("state", VStr state)]
  end.

Definition _create_numeric_parser (prefix : string) (response : string)
  : outcome (option payload) :=
  match re_prefix prefix (opt_space digits_eol) response with
  | Some d => int_payload d (fun n => Some [("level", VInt n)])
  | None => Ret None
  end.

Definition _parse_volume (response : string) : option event :=
  match re_prefix "MVMAX" (opt_space digits_eol) response with
  | Some raw_val_str =>
      Some ("max_volume_update", [("value", VNum (_parse_value_with_half_step raw_val_str))])
  | None =>
      match re_prefix "MV" digits_eol response with
      | Some raw_val_str =>
          Some ("volume_update", [("value", VNum (_parse_value_with_half_step raw_val_str))])
      | None => None
      end
  end.

Definition _parse_mute := _create_on_off_parser "MU" "ON" "OFF".
Definition _parse_subwoofer_status := _create_on_off_parser "PSSWR " "ON" "OFF".

Definition _parse_dialog_level (response : string) : option payload :=
  if String.eqb response "PSDIL OFF" || String.eqb response "PSDILOFF" then
    Some [("state", VStr "off")]
  else if String.eqb response "PSDIL ON" || String.eqb response "PSDILON" then
    Some [("state", VStr "on")]
  else
    match re_prefix "PSDIL" (opt_space digits_eol) response with
    | Some raw_val_str => Some [("value", VNum (_parse_value_with_half_step raw_val_str))]
    | None => None
    end.

Definition _parse_mdax :=
  _create_multi_state_parser
    (re_prefix "PSMDAX" (opt_space (alt_eol ["OFF"; "LOW"; "MED"; "HI"])))
    [("med", "medium"); ("hi", "high")].

Definition _parse_cinema_eq := _create_on_off_parser "PSCINEQ" "ON" "OFF".
Definition _parse_dynamic_eq := _create_on_off_parser "PSDYNEQ" "ON" "OFF".

Definition _parse_dynamic_volume :=
  _create_multi_state_parser
    (re_prefix "PSDYNVOL" (opt_space (alt_eol ["OFF"; "LIT"; "MED"; "HEV"])))
    [("lit", "light"); ("med", "medium"); ("hev", "heavy")].

Definition picture_mode_map : list (string * string) :=
  [("PVOFF", "off"); ("PVSTD", "standard"); ("PVMOV", "movie"); ("PVVVD", "vivid");
   ("PVSTM", "stream"); ("PVCTM", "custom"); ("PVDAY", "isf_day"); ("PVNGT", "isf_night")].

Definition _parse_picture_mode (response : string) : option payload :=
  match assoc response picture_mode_map with
  | Some m => Some [("state", VStr m)]
  | None => None
  end.

Definition _parse_graphic_eq := _create_on_off_parser "PSGEQ" "ON" "OFF".
Definition _parse_tone_control := _create_on_off_parser "PSTONE CTRL " "ON" "OFF".

(** [\d{2}] then [$]. *)
Definition two_digits_eol (r : string) : option string :=
  match r with
  | String a (String b rest) =>
      if is_digit a && is_digit b && py_eol rest then Some (String a (str1 b)) else None
  | _ => None
  end.

Definition _parse_center_gain (response : string) : option payload :=
  match re_prefix "PSCEG" (opt_space two_digits_eol) response with
  | Some d => Some [("value", VNum (inject_Z (digits_value d) / 10))]
  | None => None
  end.

Definition _parse_dynamic_range_compression :=
  _create_multi_state_parser
    (re_prefix "PSDRC" (req_space (alt_eol ["OFF"; "LOW"; "MID"; "HI"])))
    [("mid", "medium"); ("hi", "high")].

Definition _parse_eco_mode :=
  _create_multi_state_parser (re_prefix "PSEC" (opt_space (alt_eol ["ON"; "AUTO"; "OFF"]))) [].

Definition _parse_audyssey_dyn_comp :=
  _create_multi_state_parser (re_prefix "PSDCA" (opt_space (alt_eol ["AUTO"; "OFF"]))) [].

Definition _parse_sound_detail :=
  _create_multi_state_parser
    (re_prefix "SD" (opt_space (alt_eol ["AUTO"; "ANALOG"; "HDMI"; "ARC"]))) [].

Definition _parse_digital_control :=
  _create_multi_state_parser (re_prefix "DC" (alt_eol ["AUTO"; "ANALOG"; "HDMI"; "DIGITAL"])) [].

(** [ LOCK (ON|OFF)$] after the lock type. *)
Definition lock_tail : string -> option string :=
  re_prefix " LOCK " (alt_eol ["ON"; "OFF"]).

(** [^(SYREMOTE|SYPANEL(?:\+V)?) LOCK (ON|OFF)$]: both groups. *)
Definition match_system_lock (response : string) : option (string * string) :=
  let remote :=
    match re_prefix "SYREMOTE" lock_tail response with
    | Some st => Some ("SYREMOTE", st)
    | None => None
    end in
  match remote with
  | Some m => Some m
  | None =>
      match strip_prefix "SYPANEL" response with
      | Some r =>
          match re_prefix "+V" lock_tail r with
          | Some st => Some ("SYPANEL+V", st)
          | None => match lock_tail r with
                    | Some st => Some ("SYPANEL", st)
                    | None => None
                    end
          end
      | None => None
      end
  end.

Definition _parse_system_lock (response : string) : option event :=
  match match_system_lock response with
  | Some (lock_type_raw, state_raw) =>
      let event_name := if String.eqb (py_lower lock_type_raw) "syremote"
                        then "remote_lock_update" else "panel_lock_update" in
      Some (event_name, [("state", VStr (py_lower state_raw))])
  | None => None
  end.

Definition _parse_sound_mode (response : string) : option payload :=
  match strip_prefix "MS" response with
  | Some m => Some [("mode", VStr m)]
  | None => None
  end.

Definition _parse_smart_select (response : string) : option payload :=
  if startswith "MSSMART" response then Some [("selection", VStr response)] else None.

(** [s.split(' ', 1)[1]] on a string holding a space. *)
Fixpoint after_first_space (s : string) : string :=
  match s with
  | EmptyString => EmptyString
  | String c s' => if Ascii.eqb c " " then s' else after_first_space s'
  end.

Definition _parse_play_state (response : string) : option payload :=
  if startswith "NSF " response || startswith "CRPLYSTS " response then
    Some [("state", VStr (after_first_space response))]
  else None.

Definition _parse_sleep_timer (response : string) : outcome (option payload) :=
  if String.eqb response "SLPOFF" then Ret (Some [("state", VStr "off")])
  else
    match re_prefix "SLP" digits_eol response with
    | Some d =>
        int_payload d (fun minutes =>
          if (minutes =? 0)%Z then Some [("state", VStr "off")]
          else Some [("state", VStr "on"); ("minutes", VInt minutes)])
    | None => Ret None
    end.

(** *** Binary64 arithmetic of the tuner frequency

    [int(freq_str) / 100.0] converts the [int] to a double (correctly
    rounded, [OverflowError] past the largest double) and divides in
    binary64 (correctly rounded); [f'{freq:.2f}'] prints the exact binary
    value rounded to two decimals.  All rounding is to nearest, ties to
    even.  The values met are 0 or at least 0.01, so only normal doubles
    occur. *)

(** The integer nearest to [n / d] ([d > 0]), ties to the even one. *)
Definition round_half_even (n d : Z) : Z :=
  let q := (n / d)%Z in
  let r := (n mod d)%Z in
  if (2 * r <? d)%Z then q
  else if (d <? 2 * r)%Z then (q + 1)%Z
  else if Z.even q then q else (q + 1)%Z.

(** A non-negative finite double: [mant * 2 ^ expo], with [mant] 0 or in
    [[2^52, 2^53)]. *)
Record double := mk_double { mant : Z; expo : Z }.

(** [n / (d * 2 ^ e)] as a fraction of integers. *)
Definition scale_frac (n d e : Z) : Z * Z :=
  if (0 <=? e)%Z then (n, d * 2 ^ e)%Z else (n * 2 ^ (- e), d)%Z.

(** The exponent that puts [n / d] in [[2^52, 2^53)] once scaled. *)
Definition binary64_exp (n d : Z) : Z :=
  let e0 := (Z.log2 n - Z.log2 d - 52)%Z in
  let (a, b) := scale_frac n d e0 in
  if (a / b <? 2 ^ 52)%Z then (e0 - 1)%Z else e0.

(** The double nearest to the non-negative rational [n / d]. *)
Definition round_binary64 (n d : Z) : double :=
  if (n <=? 0)%Z then mk_double 0 0
  else
    let e := binary64_exp n d in
    let (a, b) := scale_frac n d e in
    let m := round_half_even a b in
    if (m =? 2 ^ 53)%Z then mk_double (2 ^ 52) (e + 1) else mk_double m e.

(** The value of a double as a fraction of integers. *)
Definition double_frac (x : double) : Z * Z :=
  if (0 <=? expo x)%Z then (mant x * 2 ^ expo x, 1)%Z else (mant x, 2 ^ (- expo x))%Z.

(** [float(n)] for an [int] [n >= 0] ([PyLong_AsDouble]). *)
Definition int_to_float (n : Z) : outcome double :=
  let x := round_binary64 n 1 in
  if (971 <? expo x)%Z then Raise "OverflowError" else Ret x.

(** [x / 100.0]. *)
Definition div100 (x : double) : double :=
  let (a, b) := double_frac x in round_binary64 a (100 * b).

(** The integer part of [n / 100], a point and the two last digits of [n]
    ([n >= 0]). *)
Definition format_hundredths (n : Z) : string :=
  let r := (n mod 100)%Z in
  Z_to_dec (n / 100) ++ "." ++ (if (r <? 10)%Z then "0" else "") ++ Z_to_dec r.

(** [f'{x:.2f}'] for a double [x >= 0]. *)
Definition format_2f (x : double) : string :=
  let (a, b) := double_frac x in format_hundredths (round_half_even (100 * a) b).

Definition _parse_tuner_status (response : string) : outcome (option event) :=
  match strip_prefix "TMAN" response with
  | Some m => Ret (Some ("tuner_mode_update", [("mode", VStr m)]))
  | None =>
  match strip_prefix "TFAN" response with
  | Some freq_str =>
      let stripped := py_strip freq_str in
      if negb (negb (String.eqb stripped "") && str_forall py_isdigit_char stripped) then
        Ret (Some ("tuner_name_update", [("name", VStr stripped)]))
      else if negb (str_forall is_digit stripped) then
        (* [int()] refuses the superscript digits that [str.isdigit] accepts *)
        Raise "ValueError"
      else
        (* [int(freq_str)] ignores the surrounding whitespace *)
        match py_int_digits stripped with
        | Raise x => Raise x
        | Ret n =>
            if Nat.leb 4 (String.length freq_str) && negb (str_mem "." freq_str) then
              match int_to_float n with
              | Raise x => Raise x
              | Ret freq =>
                  Ret (Some ("tuner_frequency_update",
                             [("frequency", VStr (format_2f (div100 freq)))]))
              end
            else
              Ret (Some ("tuner_frequency_update", [("frequency", VStr (Z_to_dec n))]))
        end
  | None =>
  match strip_prefix "TPAN" response with
  | Some preset => Ret (Some ("tuner_preset_update", [("preset", VStr preset)]))
  | None => Ret None
  end
  end
  end.

Definition _parse_video_select (response : string) : option event :=
  if String.eqb response "SVON" then Some ("video_select_mode_update", [("state", VStr "on")])
  else if String.eqb response "SVOFF" then
    Some ("video_select_mode_update", [("state", VStr "off")])
  else
    match strip_prefix "SV" response with
    | Some source =>
        if negb (String.eqb source "") && negb (String.eqb source "?")
        then Some ("video_select_source_update", [("source", VStr source)])
        else None
    | None => None
    end.

Definition _parse_trigger (response : string) : option event :=
  match strip_prefix "TR" response with
  | Some (String n r) =>
      if Ascii.eqb n "1" || Ascii.eqb n "2" then
        match req_space (alt_eol ["ON"; "OFF"]) r with
        | Some state =>
            Some ("trigger_" ++ str1 n ++ "_update", [("state", VStr (py_lower state))])
        | None => None
        end
      else None
  | _ => None
  end.

Definition _parse_zone2 (response : string) : option event :=
  if String.eqb response "Z2ON" || String.eqb response "Z2OFF" then
    Some ("zone2_power_update",
          [("state", VStr (if String.eqb response "Z2ON" then "on" else "off"))])
  else if String.eqb response "Z2MUON" || String.eqb response "Z2MUOFF" then
    Some ("zone2_mute_update",
          [("state", VStr (if String.eqb response "Z2MUON" then "on" else "off"))])
  else
    match re_prefix "Z2" digits_eol response with
    | Some raw_val_str =>
        Some ("zone2_volume_update", [("value", VNum (_parse_value_with_half_step raw_val_str))])
    | None =>
        match re_prefix "Z2" (class_plus_eol (fun c => is_upper c || Ascii.eqb c "/")) response with
        | Some src => Some ("zone2_input_source_update", [("source", VStr src)])
        | None => None
        end
    end.

Definition _parse_reference_level (response : string) : outcome (option payload) :=
  match re_prefix "PSREFLEV" (req_space digits_eol) response with
  | Some d => int_payload d (fun n => Some [("value", VInt n)])
  | None => Ret None
  end.

Definition _parse_subwoofer_level_adjust (response : string) : option payload :=
  if String.eqb response "PSSWL OFF" || String.eqb response "PSSWLOFF" then
    Some [("state", VStr "off")]
  else if String.eqb response "PSSWL ON" || String.eqb response "PSSWLON" then
    Some [("state", VStr "on")]
  else
    match re_prefix "PSSWL" (opt_space digits_eol) response with
    | Some raw_val_str =>
        Some [("value", VNum (_parse_value_with_half_step raw_val_str - 50))]
    | None => None
    end.

(** The first [k] characters of [s] when they are all upper-case letters. *)
Fixpoint take_upper (k : nat) (s : string) : option (string * string) :=
  match k with
  | O => Some (EmptyString, s)
  | S k' =>
      match s with
      | String c s' =>
          if is_upper c then
            match take_upper k' s' with
            | Some (a, b) => Some (String c a, b)
            | None => None
            end
          else None
      | EmptyString => None
      end
  end.

(** [([A-Z]{1,3})\s?(\d+)$]: three letters tried first, then two, then one. *)
Definition match_channel (r : string) : option (string * string) :=
  let try_k k :=
    match take_upper k r with
    | Some (ch, rest) =>
        match opt_space digits_eol rest with
        | Some d => Some (ch, d)
        | None => None
        end
    | None => None
    end in
  match try_k 3%nat with
  | Some m => Some m
  | None => match try_k 2%nat with
            | Some m => Some m
            | None => try_k 1%nat
            end
  end.

Definition _parse_channel_level (response : string) : option event :=
  if String.eqb response "CVEND" then Some ("channel_level_list_end", [])
  else
    match re_prefix "CV" match_channel response with
    | Some (channel, raw_val_str) =>
        Some ("channel_level_update",
              [("channel", VStr channel);
               ("value", VNum (_parse_value_with_half_step raw_val_str - 50))])
    | None => None
    end.

Definition _parse_power := _create_on_off_parser "PW" "ON" "STANDBY".

Definition _parse_input_source (response : string) : option payload :=
  match strip_prefix "SI" response with
  | Some s => Some [("source", VStr s)]
  | None => None
  end.

(** ** The dispatch table [PARSER_CONFIG] and [parse_response] *)

(** A sub-parser with its event-name column: a name when the parser returns
    the payload dictionary, [None] when it returns the whole event. *)
Inductive sub_parser :=
| DataParser (f : string -> outcome (option payload)) (event_name : string)
| EventParser (f : string -> outcome (option event)).

Record entry := mk_entry {
  entry_prefix : string;
  entry_parser : sub_parser
}.

Definition data (prefix : string) (f : string -> option payload) (name : string) : entry :=
  mk_entry prefix (DataParser (fun r => Ret (f r)) name).

(** An entry whose payload parser may raise. *)
Definition data_raising (prefix : string) (f : string -> outcome (option payload))
  (name : string) : entry :=
  mk_entry prefix (DataParser f name).

Definition full (prefix : string) (f : string -> option event) : entry :=
  mk_entry prefix (EventParser (fun r => Ret (f r))).

Definition PARSER_CONFIG : list entry := [
  full "MVMAX" _parse_volume;
  full "MV" _parse_volume;
  data "MU" _parse_mute "mute_update";
  data "PSDIL" _parse_dialog_level "dialog_level_update";
  data "PSMDAX" _parse_mdax "mdax_update";
  data "PSCINEQ" _parse_cinema_eq "cinema_eq_update";
  data "PSDYNEQ" _parse_dynamic_eq "dynamic_eq_update";
  data "PSDYNVOL" _parse_dynamic_volume "dynamic_volume_update";
  data "PV" _parse_picture_mode "picture_mode_update";
  data "PW" _parse_power "power_update";
  data "SI" _parse_input_source "input_source_update";
  full "CV" _parse_channel_level;
  full "Z2" _parse_zone2;
  data_raising "PSREFLEV" _parse_reference_level "reference_level_update";
  data "PSCEG" _parse_center_gain "center_gain_update";
  data "PSSWL" _parse_subwoofer_level_adjust "sub_level_adjust_update";
  data "PSSWR" _parse_subwoofer_status "subwoofer_status_update";
  data "PSGEQ" _parse_graphic_eq "graphic_eq_update";
  data "PSTONE CTRL " _parse_tone_control "tone_control_update";
  data "PSDRC" _parse_dynamic_range_compression "drc_update";
  data "PSEC" _parse_eco_mode "eco_mode_update";
  full "SYREMOTE LOCK" _parse_system_lock;
  full "SYPANEL LOCK" _parse_system_lock;
  data "PSDCA" _parse_audyssey_dyn_comp "audyssey_dyn_comp_update";
  data "DC" _parse_digital_control "digital_control_update";
  data "NSEXT" (_create_on_off_parser "NSEXT " "ON" "OFF") "nse_extended_update";
  data "NSPAN"
    (_create_multi_state_parser
       (re_prefix "NSPAN" (alt_then ["USN"; "PAS"; "OK"; "NG"; "LOGIN"; "LOGOUT"]
                             (fun r => match opt_space dot_star_eol r with
                                       | Some _ => true
                                       | None => false
                                       end))) [])
    "pandora_login_update";
  data "SSINFAISFSV"
    (_create_multi_state_parser (re_prefix "SSINFAISFSV" (req_space dot_star_eol)) [])
    "signal_info_update";
  data "SSVCTZMAPON"
    (_create_multi_state_parser (re_prefix "SSVCTZMAPON" (req_space dot_star_eol)) [])
    "ssv_map_update";
  full "SV" _parse_video_select;
  data "SD" _parse_sound_detail "sound_detail_update";
  full "TR" _parse_trigger;
  data_raising "PSLFE" (_create_numeric_parser "PSLFE") "lfe_level_update";
  data_raising "PSBAS" (_create_numeric_parser "PSBAS") "bass_level_update";
  data_raising "PSTRE" (_create_numeric_parser "PSTRE") "treble_level_update";
  data "PSMODE" (_create_multi_state_parser (re_prefix "PSMODE:" dot_star_eol) [])
    "parameter_mode_update";
  data "SSSMG" (_create_multi_state_parser (re_prefix "SSSMG" (req_space dot_star_eol)) [])
    "sound_submode_update";
  data "ZMON" (fun _ => Some [("state", VStr "on")]) "main_zone_power_update";
  data "ZMOFF" (fun _ => Some [("state", VStr "off")]) "main_zone_power_update";
  data_raising "SLP" _parse_sleep_timer "sleep_timer_update";
  mk_entry "TM" (EventParser _parse_tuner_status);
  mk_entry "TF" (EventParser _parse_tuner_status);
  mk_entry "TP" (EventParser _parse_tuner_status);
  data "MSSMART" _parse_smart_select "smart_select_update";
  data "MS" _parse_sound_mode "sound_mode_update";
  data "NSF " _parse_play_state "play_state_update";
  data "CRPLYSTS " _parse_play_state "play_state_update"
].

(** The body of the loop of [parse_response] for the entry whose prefix
    matched: the parser's result, with [if data:] on a payload. *)
Definition apply_entry (e : entry) (response : string) : outcome (option event) :=
  match entry_parser e with
  | EventParser f => f response
  | DataParser f event_name =>
      match f response with
      | Ret (Some ((_ :: _) as d)) => Ret (Some (event_name, d))
      | Ret _ => Ret None
      | Raise x => Raise x
      end
  end.

(** The [for] loop of [parse_response] over a table. *)
Fixpoint dispatch (table : list entry) (response : string) : outcome (option event) :=
  match table with
  | [] => Ret None
  | e :: rest =>
      if startswith (entry_prefix e) response then apply_entry e response
      else dispatch rest response
  end.

(** [parse_response] with the shared [_osd_parser] passed in and returned. *)
Definition parse_response (osd : OsdParser) (now : Q) (response : string)
  : outcome (option event) * OsdParser :=
  let (osd_event, osd1) := osd_parse osd now response in
  match osd_event with
  | Some e => (Ret (Some e), osd1)
  | None => (dispatch PARSER_CONFIG response, osd1)
  end.

(** ** The line reassembly of [MarantzTelnetClient._listen_for_updates]

    The receiver's bytes are a [string] (one byte per character).  Each chunk
    read from the socket is appended to [self._line_buffer]; then, while the
    buffer holds [b'\r'], it is split at the first one and a non-empty line
    is handed to [data_callback] with its [b'\r'] put back. *)

Definition CR : ascii := chr 13.
Definition LF : ascii := chr 10.

(** [buf.split(b'\r', 1)] when [b'\r' in buf], [None] otherwise. *)
Fixpoint split_cr (buf : string) : option (string * string) :=
  match buf with
  | EmptyString => None
  | String c s =>
      if Ascii.eqb c CR then Some (EmptyString, s)
      else match split_cr s with
           | Some (line, rest) => Some (String c line, rest)
           | None => None
           end
  end.

(** The [while b'\r' in self._line_buffer] loop: the arguments of the
    [data_callback] calls, in order, and the buffer left.  Every round
    shortens the buffer, so a fuel above its length runs the loop out. *)
Fixpoint drain_buffer (fuel : nat) (buf : string) : list string * string :=
  match fuel with
  | O => ([], buf)
  | S f =>
      match split_cr buf with
      | None => ([], buf)
      | Some (line, rest) =>
          let (ls, b) := drain_buffer f rest in
          (app (if String.eqb line "" then [] else [line ++ str1 CR]) ls, b)
      end
  end.

(** One non-empty [chunk] read by the listener from the buffer [buf]. *)
Definition receive_chunk (buf chunk : string) : list string * string :=
  let b := buf ++ chunk in
  drain_buffer (S (String.length b)) b.

(** ** [TelnetEventHandler.process_data]

    The handler gets the decoded text of one callback ([raw_data.decode] with
    its latin-1 fallback is outside the embedding), splits it with
    [re.split(r'[\r\n]+', ...)], strips each part, skips the empty ones and
    passes the others to [parse_response], emitting every event it returns.
    An exception of [parse_response] leaves [process_data] at once.  Every
    call of [parse_response] reads the clock once: [clock k] is the [k]-th
    reading. *)

Definition is_newline (c : ascii) : bool := Ascii.eqb c CR || Ascii.eqb c LF.

(** [re.split(r'[\r\n]+', s)]: [cur] is the part read so far and [in_run]
    tells that the last character read was a separator (then [cur] is
    empty). *)
Fixpoint split_runs (cur : string) (in_run : bool) (s : string) : list string :=
  match s with
  | EmptyString => [cur]
  | String c s' =>
      if is_newline c then
        if in_run then split_runs cur true s' else cur :: split_runs EmptyString true s'
      else split_runs (cur ++ str1 c) false s'
  end.

Definition re_split_nl (s : string) : list string := split_runs EmptyString false s.

(** What one call of [process_data] did: the events emitted (in order), the
    exception that left it if any, the parser state and the clock index
    after it. *)
Record handler_run := mk_run {
  emitted : list event;
  raised : option string;
  osd_after : OsdParser;
  clock_after : nat
}.

(** The [for part in ...] loop. *)
Fixpoint handle_parts (clock : nat -> Q) (k : nat) (osd : OsdParser) (parts : list string)
  : handler_run :=
  match parts with
  | [] => mk_run [] None osd k
  | part :: rest =>
      let line := py_strip part in
      if String.eqb line "" then handle_parts clock k osd rest
      else
        let (r, osd1) := parse_response osd (clock k) line in
        match r with
        | Raise x => mk_run [] (Some x) osd1 (S k)
        | Ret (Some e) =>
            let run := handle_parts clock (S k) osd1 rest in
            mk_run (e :: emitted run) (raised run) (osd_after run) (clock_after run)
        | Ret None => handle_parts clock (S k) osd1 rest
        end
  end.

Definition process_data (clock : nat -> Q) (k : nat) (osd : OsdParser) (decoded_data : string)
  : handler_run :=
  handle_parts clock k osd (re_split_nl decoded_data).

(** ** Lemmas about the model *)

Lemma span_all (f : ascii -> bool) (s : string) :
  str_forall f s = true -> span f s = (s, EmptyString).
Proof.
  induction s as [|c s IH]; simpl; [reflexivity|].
  intros H; apply andb_prop in H as [Hc Hs].
  rewrite Hc, (IH Hs); reflexivity.
Qed.

Lemma digits_eol_all (d : string) :
  all_digits d = true -> digits_eol d = Some d.
Proof.
  unfold all_digits, digits_eol, class_plus_eol.
  intros H; apply andb_prop in H as [Hne Hd].
  rewrite (span_all _ _ Hd), Hne; reflexivity.
Qed.

Lemma digit_not_space (c : ascii) : is_digit c = true -> py_isspace c = false.
Proof.
  unfold is_digit, py_isspace; intros H.
  apply andb_prop in H as [H1 H2].
  apply Nat.leb_le in H1; apply Nat.leb_le in H2.
  destruct (Nat.leb 9 (code c) && Nat.leb (code c) 13) eqn:E1.
  { apply andb_prop in E1 as [_ E]; apply Nat.leb_le in E; lia. }
  destruct (Nat.leb 28 (code c) && Nat.leb (code c) 32) eqn:E2.
  { apply andb_prop in E2 as [_ E]; apply Nat.leb_le in E; lia. }
  destruct (Nat.eqb (code c) 133) eqn:E3; [apply Nat.eqb_eq in E3; lia|].
  destruct (Nat.eqb (code c) 160) eqn:E4; [apply Nat.eqb_eq in E4; lia|].
  reflexivity.
Qed.

(** A digit differs from every non-digit character. *)
Lemma digit_neq (c x : ascii) :
  is_digit c = true -> is_digit x = false -> Ascii.eqb c x = false.
Proof.
  intros Hc Hx; destruct (Ascii.eqb c x) eqn:E; [|reflexivity].
  apply Ascii.eqb_eq in E; subst; congruence.
Qed.

(** [\s?(\d+)$] on a digit string captures the whole string. *)
Lemma opt_space_digits_all (d : string) :
  all_digits d = true -> opt_space digits_eol d = Some d.
Proof.
  intros H; pose proof (digits_eol_all d H) as Hd.
  destruct d as [|c d']; [discriminate|].
  unfold all_digits in H; simpl in H.
  apply andb_prop in H as [Hc _].
  unfold opt_space; rewrite (digit_not_space c Hc); exact Hd.
Qed.

Lemma strip_prefix_app (p s : string) : strip_prefix p (p ++ s) = Some s.
Proof.
  induction p as [|a p IH]; simpl; [reflexivity|].
  rewrite Ascii.eqb_refl; exact IH.
Qed.

Lemma all_digits_cons (d : string) :
  all_digits d = true -> exists c d', d = String c d' /\ is_digit c = true.
Proof.
  destruct d as [|c d']; [discriminate|].
  unfold all_digits; simpl; intros H.
  apply andb_prop in H as [Hc _].
  eauto.
Qed.

Arguments Ascii.eqb : simpl never.

(** Settles the character comparisons left by [simpl]: a character against
    itself, two literal characters, and the digit [c] (with [Hc : is_digit c
    = true]) against a literal non-digit. *)
Ltac eqb_lits :=
  repeat match goal with
  | |- context [Ascii.eqb ?a ?a] => rewrite (Ascii.eqb_refl a)
  | |- context [Ascii.eqb (Ascii ?a0 ?a1 ?a2 ?a3 ?a4 ?a5 ?a6 ?a7)
                          (Ascii ?b0 ?b1 ?b2 ?b3 ?b4 ?b5 ?b6 ?b7)] =>
      let t := constr:(Ascii.eqb (Ascii a0 a1 a2 a3 a4 a5 a6 a7)
                                 (Ascii b0 b1 b2 b3 b4 b5 b6 b7)) in
      let v := eval vm_compute in t in
      change t with v
  end; cbn beta iota.

(** Rewrites every comparison of the digit [c] (with [Hc : is_digit c =
    true]) against a literal non-digit character to [false]. *)
Ltac digit_neqs c Hc :=
  repeat match goal with
  | |- context [Ascii.eqb c ?x] => rewrite (digit_neq c x Hc) by reflexivity
  | |- context [Ascii.eqb ?x c] =>
      rewrite (Ascii.eqb_sym x c), (digit_neq c x Hc) by reflexivity
  end; eqb_lits.

(** ** C10 and C5: the half-step conversion *)

(** C10: [_parse_value_with_half_step] divides by 10 exactly when its
    argument has 3 characters, and returns the value undivided for every
    other length; "5" gives 5 and "1005" gives 1005, not 100.5. *)
Theorem half_step_divides_only_at_length_3 :
  (forall s,
     (String.length s = 3%nat /\
      _parse_value_with_half_step s = inject_Z (digits_value s) / 10)
     \/ (String.length s <> 3%nat /\
         _parse_value_with_half_step s = inject_Z (digits_value s)))
  /\ _parse_value_with_half_step "5" = 5
  /\ _parse_value_with_half_step "1005" = 1005.
Proof.
  split; [|split; reflexivity].
  intros s; unfold _parse_value_with_half_step.
  destruct (Nat.eqb (String.length s) 3) eqn:E.
  - left; split; [apply Nat.eqb_eq; exact E | reflexivity].
  - right; split; [apply Nat.eqb_neq; exact E | reflexivity].
Qed.

(** C5: every sub-parser of a half-unit parameter (main volume, maximum
    volume, dialog level, zone-2 volume, subwoofer level and channel levels,
    the last two on a scale centred at 50) converts its captured digit string
    [d] with the one routine [_parse_value_with_half_step], which reads a
    3-digit string as the number divided by 10 and a 2-digit string as the
    number itself; "PSDIL505" decodes to 50.5 and "PSDIL50" to 50. *)
Theorem half_step_shared_by_sub_parsers (d : string) (Hd : all_digits d = true) :
  (String.length d = 3%nat ->
   _parse_value_with_half_step d = inject_Z (digits_value d) / 10)
  /\ (String.length d = 2%nat ->
      _parse_value_with_half_step d = inject_Z (digits_value d))
  /\ _parse_volume ("MV" ++ d)
     = Some ("volume_update", [("value", VNum (_parse_value_with_half_step d))])
  /\ _parse_volume ("MVMAX" ++ d)
     = Some ("max_volume_update", [("value", VNum (_parse_value_with_half_step d))])
  /\ _parse_dialog_level ("PSDIL" ++ d)
     = Some [("value", VNum (_parse_value_with_half_step d))]
  /\ _parse_zone2 ("Z2" ++ d)
     = Some ("zone2_volume_update", [("value", VNum (_parse_value_with_half_step d))])
  /\ _parse_subwoofer_level_adjust ("PSSWL" ++ d)
     = Some [("value", VNum (_parse_value_with_half_step d - 50))]
  /\ (forall c, is_upper c = true ->
      _parse_channel_level ("CV" ++ String c d)
      = Some ("channel_level_update",
              [("channel", VStr (str1 c));
               ("value", VNum (_parse_value_with_half_step d - 50))]))
  /\ _parse_dialog_level "PSDIL505" = Some [("value", VNum 50.5)]
  /\ _parse_dialog_level "PSDIL50" = Some [("value", VNum 50)].
Proof.
  pose proof (digits_eol_all d Hd) as He.
  pose proof (opt_space_digits_all d Hd) as Ho.
  destruct (all_digits_cons d Hd) as [c [d' [-> Hc]]].
  split; [intros H; unfold _parse_value_with_half_step; rewrite H; reflexivity|].
  split; [intros H; unfold _parse_value_with_half_step; rewrite H; reflexivity|].
  split.
  { unfold _parse_volume, re_prefix; cbn [re_prefix strip_prefix append String.eqb orb andb negb]; eqb_lits; digit_neqs c Hc.
    rewrite He; reflexivity. }
  split.
  { unfold _parse_volume, re_prefix; cbn [re_prefix strip_prefix append String.eqb orb andb negb]; eqb_lits; rewrite Ho; reflexivity. }
  split.
  { unfold _parse_dialog_level, re_prefix; cbn [re_prefix strip_prefix append String.eqb orb andb negb]; eqb_lits; digit_neqs c Hc.
    rewrite Ho; reflexivity. }
  split.
  { unfold _parse_zone2, re_prefix; cbn [re_prefix strip_prefix append String.eqb orb andb negb]; eqb_lits; digit_neqs c Hc.
    rewrite He; reflexivity. }
  split.
  { unfold _parse_subwoofer_level_adjust, re_prefix; cbn [re_prefix strip_prefix append String.eqb orb andb negb]; eqb_lits; digit_neqs c Hc.
    rewrite Ho; reflexivity. }
  split; [|split; reflexivity].
  intros u Hu.
  unfold _parse_channel_level, re_prefix, match_channel; cbn [re_prefix strip_prefix append String.eqb orb andb negb]; eqb_lits.
  assert (Hnu : is_upper c = false).
  { unfold is_digit in Hc; unfold is_upper.
    apply andb_prop in Hc as [H1 H2]; apply Nat.leb_le in H1, H2.
    destruct (Nat.leb 65 (code c)) eqn:E1; [|reflexivity].
    apply Nat.leb_le in E1; apply Nat.leb_gt; lia. }
  digit_neqs c Hc.
  destruct (Ascii.eqb u "E"); cbn [take_upper andb]; rewrite Hu, Hnu; rewrite Ho;
    reflexivity.
Qed.

(** Witness for C5 at the digit string "505". *)
Lemma half_step_shared_by_sub_parsers_witness :
  all_digits "505" = true
  /\ _parse_dialog_level ("PSDIL" ++ "505")
     = Some [("value", VNum (_parse_value_with_half_step "505"))].
Proof.
  split; [reflexivity|].
  destruct (half_step_shared_by_sub_parsers "505" eq_refl) as [_ [_ [_ [_ [H _]]]]].
  exact H.
Defined.

(** ** Event names of the OSD parser *)

Definition osd_event_names : list string :=
  ["osd_title_update"; "now_playing_title_update"; "now_playing_artist_update";
   "now_playing_samplerate_update"; "now_playing_album_update"; "play_progress_update";
   "osd_menu_item_update"; "osd_context_menu_item_update"; "station_info_update"].

(** Case analysis on the innermost scrutinees of [H]. *)
Ltac destruct_matches H :=
  repeat match type of H with
  | context [match ?x with _ => _ end] =>
      lazymatch x with
      | context [match _ with _ => _ end] => fail
      | _ => destruct x
      end
  end.

Lemma osd_parse_event_names (p : OsdParser) (now : Q) (r : string) e p' :
  osd_parse p now r = (Some e, p') -> In (fst e) osd_event_names.
Proof.
  intros H.
  unfold osd_parse, osd_parse_nse, _handle_title_line, _handle_menu_line,
    _handle_now_playing_line, _handle_context_menu_line in H.
  cbv zeta in H.
  destruct_matches H; inversion H; subst; simpl; tauto.
Qed.

Lemma startswith_app (p s : string) :
  startswith p s = true -> exists rest, s = p ++ rest.
Proof.
  revert s; induction p as [|a p IH]; intros s H.
  - exists s; reflexivity.
  - destruct s as [|b s]; [discriminate|].
    simpl in H; apply andb_prop in H as [Hab Hs].
    apply Ascii.eqb_eq in Hab; subst b.
    destruct (IH s Hs) as [rest ->]; exists rest; reflexivity.
Qed.

(** The first entry whose prefix matches, as the spec describes the table. *)
Definition spec_first_match (table : list entry) (line : string) : option entry :=
  find (fun e => startswith (entry_prefix e) line) table.

Lemma dispatch_first_match (table : list entry) (line : string) :
  dispatch table line =
  match spec_first_match table line with
  | Some e => apply_entry e line
  | None => Ret None
  end.
Proof.
  induction table as [|e table IH]; simpl; [reflexivity|].
  destruct (startswith (entry_prefix e) line); [reflexivity | exact IH].
Qed.

(** ** C6: [MVMAX] lines *)

(** C6: the dispatch table decodes "MVMAX735" as exactly a max-volume update
    of 73.5, which is also what [parse_response] returns when no fragment is
    pending; and for no line starting with "MVMAX" does [parse_response]
    return a plain volume update. *)
Theorem mvmax_decodes_as_max_volume_only :
  dispatch PARSER_CONFIG "MVMAX735"
    = Ret (Some ("max_volume_update", [("value", VNum 73.5)]))
  /\ (forall osd now, pending_selected_line osd = None ->
      parse_response osd now "MVMAX735"
        = (Ret (Some ("max_volume_update", [("value", VNum 73.5)])), osd))
  /\ (forall osd now line pl, startswith "MVMAX" line = true ->
      fst (parse_response osd now line) <> Ret (Some ("volume_update", pl))).
Proof.
  split; [reflexivity|].
  split.
  { intros [t c pd] now Hp; simpl in Hp; subst pd; reflexivity. }
  intros osd now line pl Hs.
  unfold parse_response.
  destruct (osd_parse osd now line) as [[e|] osd'] eqn:E; simpl.
  - intros Heq; injection Heq as He; subst e.
    pose proof (osd_parse_event_names _ _ _ _ _ E) as Hin.
    simpl in Hin; intuition discriminate.
  - destruct (startswith_app _ _ Hs) as [rest ->].
    cbn [dispatch PARSER_CONFIG full entry_prefix startswith append andb].
    eqb_lits; cbn [andb apply_entry entry_parser full].
    unfold _parse_volume.
    match goal with
    | |- context [re_prefix "MVMAX" ?f ?r] => destruct (re_prefix "MVMAX" f r)
    end; [congruence|].
    unfold re_prefix; cbn [strip_prefix]; eqb_lits.
    discriminate.
Qed.

(** Witness for C6 at the line "MVMAX735" on a fresh parser. *)
Lemma mvmax_decodes_as_max_volume_only_witness :
  startswith "MVMAX" "MVMAX735" = true
  /\ fst (parse_response (new_OsdParser 5) 0 "MVMAX735") <> Ret (Some ("volume_update", [])).
Proof.
  split; [reflexivity|].
  destruct mvmax_decodes_as_max_volume_only as [_ [_ H]].
  apply H; reflexivity.
Defined.

(** ** C7: first match wins *)

(** C7: [parse_response] lets the OSD parser answer first; otherwise it
    applies exactly one table entry, the first whose prefix matches the
    line, and returns that entry's result as it is (no event when the
    sub-parser gives none) without trying a later entry; with no matching
    entry it returns no event. *)
Theorem parse_response_first_match_wins (osd : OsdParser) (now : Q) (line : string) :
  parse_response osd now line =
  match osd_parse osd now line with
  | (Some e, osd') => (Ret (Some e), osd')
  | (None, osd') =>
      (match spec_first_match PARSER_CONFIG line with
       | Some e => apply_entry e line
       | None => Ret None
       end, osd')
  end.
Proof.
  unfold parse_response.
  destruct (osd_parse osd now line) as [[e|] osd']; [reflexivity|].
  rewrite dispatch_first_match; reflexivity.
Qed.

(** ** OSD parser lemmas *)

Lemma strip_prefix_startswith (p s x : string) :
  strip_prefix p s = Some x -> startswith p s = true.
Proof.
  revert s; induction p as [|a p IH]; intros s H; [reflexivity|].
  destruct s as [|b s]; [discriminate|].
  simpl in H |- *; destruct (Ascii.eqb a b); [exact (IH s H) | discriminate].
Qed.

Lemma match_nse_startswith (r : string) k raw :
  match_nse r = Some (k, raw) -> startswith "NSE" r = true.
Proof.
  unfold match_nse.
  destruct (strip_prefix "NSE" r) eqn:E; [|discriminate].
  intros _; exact (strip_prefix_startswith _ _ _ E).
Qed.

(** A line that does not start with "NSE" while a fragment is pending is
    taken as the pending slot's text. *)
Lemma osd_parse_fragment (p : OsdParser) (now : Q) (r : string) (n : Z) :
  pending_selected_line p = Some n -> startswith "NSE" r = false ->
  osd_parse p now r =
  (Some (match screen_mode (context p) with
         | Some MODE_CONTEXT_MENU => "osd_context_menu_item_update"
         | _ => "osd_menu_item_update"
         end,
         [("line", VInt n); ("text", VStr (_clean_osd_text r)); ("is_selected", VBool true)]),
   set_pending p None).
Proof.
  intros Hp Hs; unfold osd_parse; rewrite Hp, Hs; reflexivity.
Qed.

(** A line starting with "NSE" is parsed as an ordinary OSD line. *)
Lemma osd_parse_nse_line (p : OsdParser) (now : Q) (r : string) :
  startswith "NSE" r = true -> osd_parse p now r = osd_parse_nse p now r.
Proof.
  intros Hs; unfold osd_parse; rewrite Hs.
  destruct (pending_selected_line p); reflexivity.
Qed.

Lemma parse_response_state (p : OsdParser) (now : Q) (r : string) :
  snd (parse_response p now r) = snd (osd_parse p now r).
Proof.
  unfold parse_response; destruct (osd_parse p now r) as [[e|] p']; reflexivity.
Qed.

Lemma parse_response_osd_event (p : OsdParser) (now : Q) (r : string) e p' :
  osd_parse p now r = (Some e, p') -> parse_response p now r = (Ret (Some e), p').
Proof. intros H; unfold parse_response; rewrite H; reflexivity. Qed.

Lemma handle_menu_line_pending (p : OsdParser) (line : Z) (raw : string) :
  pending_selected_line (snd (_handle_menu_line p line raw)) = pending_selected_line p.
Proof.
  unfold _handle_menu_line.
  destruct (startswith (str1 SELECTED_ITEM_CHAR) raw), (_ || _); reflexivity.
Qed.

(** After a timeout reset no mode is known, so a content line never
    re-buffers a fragment and leaves the pending slot as it was. *)
Lemma osd_parse_nse_timed_out_pending (p : OsdParser) (now : Q) (r raw : string) (k : Z) :
  Qle_bool (now - last_update_time (context p)) (context_timeout p) = false ->
  match_nse r = Some (k, raw) -> k <> 0%Z ->
  pending_selected_line (snd (osd_parse_nse p now r)) = pending_selected_line p.
Proof.
  intros Ht Hm Hk.
  unfold osd_parse_nse; rewrite Hm.
  unfold _reset_context_if_timed_out; rewrite Ht; cbn [negb].
  apply Z.eqb_neq in Hk; rewrite Hk.
  destruct (k =? 8)%Z.
  - destruct (negb _); reflexivity.
  - cbn [set_context set_time set_mode context screen_mode mode_in_menus andb
         pending_selected_line].
    destruct (infer_mode raw) as [[| |]|]; cbn [snd];
      try reflexivity; rewrite handle_menu_line_pending; reflexivity.
Qed.

(** What an OSD line does to the pending slot: it keeps it, or buffers
    the slot of a blank content line, or drops it on a changed title. *)
Lemma osd_parse_nse_pending (p : OsdParser) (now : Q) (r : string) :
  pending_selected_line (snd (osd_parse_nse p now r)) = pending_selected_line p
  \/ (exists k raw, match_nse r = Some (k, raw) /\ k <> 0%Z /\ k <> 8%Z
                    /\ py_strip raw = ""
                    /\ pending_selected_line (snd (osd_parse_nse p now r)) = Some k)
  \/ (exists raw, match_nse r = Some (0%Z, raw)
                  /\ _clean_osd_text raw <> screen_title (context p)
                  /\ pending_selected_line (snd (osd_parse_nse p now r)) = None).
Proof.
  unfold osd_parse_nse.
  destruct (match_nse r) as [[k raw]|] eqn:Em; [|left; reflexivity].
  assert (Hr : pending_selected_line (_reset_context_if_timed_out p now)
               = pending_selected_line p
               /\ screen_title (context (_reset_context_if_timed_out p now))
                  = screen_title (context p)).
  { unfold _reset_context_if_timed_out; destruct (negb _); split; reflexivity. }
  cbv zeta; revert Hr; generalize (_reset_context_if_timed_out p now) as p1.
  intros p1 [Hr1 Hr2].
  destruct (k =? 0)%Z eqn:E0.
  { apply Z.eqb_eq in E0; subst k; unfold _handle_title_line.
    destruct (String.eqb (_clean_osd_text raw) (screen_title (context p1))) eqn:Et;
      cbn [negb snd].
    - left; exact Hr1.
    - right; right; exists raw; split; [reflexivity|]; split; [|reflexivity].
      apply String.eqb_neq in Et; rewrite <- Hr2; exact Et. }
  destruct (k =? 8)%Z eqn:E8.
  { destruct (negb _); left; exact Hr1. }
  destruct (mode_in_menus (screen_mode (context p1)) && String.eqb (py_strip raw) "") eqn:Eb.
  { right; left; exists k, raw.
    apply andb_prop in Eb as [_ Eb]; apply String.eqb_eq in Eb.
    apply Z.eqb_neq in E0, E8; repeat split; assumption. }
  left.
  destruct (screen_mode (context p1)) as [m|] eqn:Es;
    [destruct m | cbn [set_context set_mode context screen_mode];
                  destruct (infer_mode raw) as [[| |]|]];
    cbn [snd]; rewrite ?Es, ?handle_menu_line_pending; exact Hr1.
Qed.

(** ** C1: the pending fragment *)

(** C1, counterexample: in Menu mode with slot 2 pending, the next line
    "NSE3" followed by a menu-item byte and "Foo" is not taken as slot 2's
    text: it is parsed as slot 3's own item (not selected) and slot 2 stays
    pending. *)
Lemma pending_fragment_nse_line_counterexample :
  let p := mk_osd 5 (mk_context (Some MODE_MENU) 0 "Setup Menu" (-1) []) (Some 2%Z) in
  parse_response p 1 ("NSE3" ++ String MENU_ITEM_CHAR "Foo")
  = (Ret (Some ("osd_menu_item_update",
                [("line", VInt 3); ("text", VStr "Foo"); ("is_selected", VBool false)])),
     mk_osd 5 (mk_context (Some MODE_MENU) 1 "Setup Menu" (-1) []) (Some 2%Z)).
Proof. vm_compute; reflexivity. Qed.

(** C1 (amended): while slot [n] is pending, the next line processed that
    does not start with "NSE" is taken as slot [n]'s text, emitted as a
    context-menu item update in context-menu mode and as a menu item update
    otherwise, always with [is_selected] true, and the pending slot is
    cleared.  A line that starts with "NSE" is not taken as the fragment but
    parsed as an ordinary OSD line, and the slot stays pending unless that
    line re-buffers a slot (a blank content line of a slot other than 0 and
    8) or is a title line whose cleaned text differs from the stored title,
    which clears it. *)
Theorem pending_fragment_consumed_by_next_non_nse_line
    (p : OsdParser) (now : Q) (n : Z) (Hp : pending_selected_line p = Some n) :
  (forall r, startswith "NSE" r = false ->
   parse_response p now r =
   (Ret (Some (match screen_mode (context p) with
               | Some MODE_CONTEXT_MENU => "osd_context_menu_item_update"
               | _ => "osd_menu_item_update"
               end,
               [("line", VInt n); ("text", VStr (_clean_osd_text r));
                ("is_selected", VBool true)])),
    set_pending p None)
   /\ pending_selected_line (set_pending p None) = None)
  /\ (forall r, startswith "NSE" r = true ->
      pending_selected_line (snd (parse_response p now r)) = Some n
      \/ (exists k raw, match_nse r = Some (k, raw) /\ k <> 0%Z /\ k <> 8%Z
                        /\ py_strip raw = ""
                        /\ pending_selected_line (snd (parse_response p now r)) = Some k)
      \/ (exists raw, match_nse r = Some (0%Z, raw)
                      /\ _clean_osd_text raw <> screen_title (context p)
                      /\ pending_selected_line (snd (parse_response p now r)) = None)).
Proof.
  split.
  - intros r Hs; split; [|reflexivity].
    apply parse_response_osd_event, osd_parse_fragment; assumption.
  - intros r Hs; rewrite parse_response_state, (osd_parse_nse_line p now r Hs).
    rewrite <- Hp; apply osd_parse_nse_pending.
Qed.

(** Witness for C1 (amended) in Menu mode with slot 2 pending and the line
    "Selected Text". *)
Lemma pending_fragment_consumed_by_next_non_nse_line_witness :
  let p := mk_osd 5 (mk_context (Some MODE_MENU) 0 "Setup Menu" (-1) []) (Some 2%Z) in
  pending_selected_line p = Some 2%Z
  /\ startswith "NSE" "Selected Text" = false
  /\ fst (parse_response p 1 "Selected Text")
     = Ret (Some ("osd_menu_item_update",
                  [("line", VInt 2); ("text", VStr (_clean_osd_text "Selected Text"));
                   ("is_selected", VBool true)]))
  /\ pending_selected_line (snd (parse_response p 1 ("NSE3" ++ String MENU_ITEM_CHAR "Foo")))
     = Some 2%Z.
Proof.
  intros p; split; [reflexivity|]; split; [reflexivity|].
  destruct (pending_fragment_consumed_by_next_non_nse_line p 1 2 eq_refl) as [H H'].
  destruct (H "Selected Text" eq_refl) as [H1 _].
  split; [rewrite H1; reflexivity|].
  destruct (H' ("NSE3" ++ String MENU_ITEM_CHAR "Foo") eq_refl) as [H2|[H2|H2]];
    [exact H2| |].
  - destruct H2 as [k [raw [Hm [_ [_ [Hb _]]]]]].
    injection Hm as <- <-; discriminate Hb.
  - destruct H2 as [raw [Hm _]]; discriminate Hm.
Defined.

(** ** C2: a fragmented selected item *)

(** C2, counterexample: a Menu-mode parser whose last update lies more than
    the timeout (5) before "NSE2" arrives drops its mode, so "NSE2" buffers
    nothing and neither line yields an event. *)
Lemma menu_fragment_after_timeout_counterexample :
  let p := mk_osd 5 (mk_context (Some MODE_MENU) 0 "Setup Menu" (-1) []) None in
  fst (parse_response p 10 "NSE2") = Ret None
  /\ fst (parse_response (snd (parse_response p 10 "NSE2")) 10 "Selected Text") = Ret None.
Proof. split; vm_compute; reflexivity. Qed.

(** C2 (amended): from a Menu-mode parser that receives "NSE2" within the
    inactivity timeout of its last update, "NSE2" yields no event and only
    buffers slot 2, and the following line "Selected Text" yields the one
    event: a menu item update with line 2, text "Selected Text" and
    [is_selected] true.  If "NSE2" arrives after the timeout, the mode is
    cleared first: "NSE2" yields no event and buffers nothing, the pending
    slot keeps its earlier value, and "Selected Text" yields no event when
    no slot was pending and is taken as the text of the earlier pending
    slot otherwise. *)
Theorem menu_fragment_two_lines (p : OsdParser) (now1 now2 : Q)
    (Hm : screen_mode (context p) = Some MODE_MENU) :
  (Qle_bool (now1 - last_update_time (context p)) (context_timeout p) = true ->
   fst (parse_response p now1 "NSE2") = Ret None
   /\ pending_selected_line (snd (parse_response p now1 "NSE2")) = Some 2%Z
   /\ fst (parse_response (snd (parse_response p now1 "NSE2")) now2 "Selected Text")
      = Ret (Some ("osd_menu_item_update",
                   [("line", VInt 2); ("text", VStr "Selected Text");
                    ("is_selected", VBool true)])))
  /\ (Qle_bool (now1 - last_update_time (context p)) (context_timeout p) = false ->
   fst (parse_response p now1 "NSE2") = Ret None
   /\ pending_selected_line (snd (parse_response p now1 "NSE2")) = pending_selected_line p
   /\ fst (parse_response (snd (parse_response p now1 "NSE2")) now2 "Selected Text")
      = match pending_selected_line p with
        | None => Ret None
        | Some k => Ret (Some ("osd_menu_item_update",
                              [("line", VInt k); ("text", VStr "Selected Text");
                               ("is_selected", VBool true)]))
        end).
Proof.
  split; intros Ht; cycle 1.
  { set (p' := mk_osd (context_timeout p)
                 (mk_context None now1 (screen_title (context p)) (cursor_line (context p))
                    (menu_items (context p)))
                 (pending_selected_line p)).
    assert (H : osd_parse p now1 "NSE2" = (None, p')).
    { rewrite osd_parse_nse_line by reflexivity.
      unfold osd_parse_nse, _reset_context_if_timed_out; cbn [match_nse strip_prefix].
      eqb_lits; rewrite Ht; cbn [negb].
      change (Z.of_nat (code "2") - 48)%Z with 2%Z.
      reflexivity. }
    assert (Hr : parse_response p now1 "NSE2" = (Ret None, p')).
    { unfold parse_response; rewrite H; reflexivity. }
    rewrite Hr; cbn [fst snd].
    split; [reflexivity|]; split; [reflexivity|].
    destruct (pending_selected_line p) as [k|] eqn:Ep.
    - rewrite (parse_response_osd_event _ _ _ _ _
                 (osd_parse_fragment p' now2 "Selected Text" k eq_refl eq_refl)).
      reflexivity.
    - unfold parse_response, osd_parse; subst p'; cbn [pending_selected_line].
      unfold osd_parse_nse.
      replace (match_nse "Selected Text") with (@None (Z * string)) by reflexivity.
      replace (dispatch PARSER_CONFIG "Selected Text") with (@Ret (option event) None)
        by (vm_compute; reflexivity).
      reflexivity. }
  assert (H : osd_parse p now1 "NSE2"
              = (None, set_pending (_reset_context_if_timed_out p now1) (Some 2%Z))).
  { rewrite osd_parse_nse_line by reflexivity.
    unfold osd_parse_nse, _reset_context_if_timed_out; cbn [match_nse strip_prefix].
    eqb_lits; rewrite Ht; cbn [negb].
    change (Z.of_nat (code "2") - 48)%Z with 2%Z.
    cbn [Z.eqb set_context set_time context screen_mode]; rewrite Hm; reflexivity. }
  assert (Hr : parse_response p now1 "NSE2"
               = (Ret None, set_pending (_reset_context_if_timed_out p now1) (Some 2%Z))).
  { unfold parse_response; rewrite H; reflexivity. }
  rewrite Hr; cbn [fst snd].
  split; [reflexivity|]; split; [reflexivity|].
  rewrite (parse_response_osd_event _ _ _ _ _
             (osd_parse_fragment
                (set_pending (_reset_context_if_timed_out p now1) (Some 2%Z))
                now2 "Selected Text" 2 eq_refl eq_refl)).
  unfold _reset_context_if_timed_out; rewrite Ht; cbn.
  rewrite Hm; reflexivity.
Qed.

(** Witness for C2 (amended): a Menu-mode parser updated at time 0 that
    receives both lines at time 1; and the parser after "NSE0Setup Menu"
    and a blank "NSE5" at time 0, which receives "NSE2" only at time 10,
    past the timeout 5: slot 5 stays pending and "Selected Text" is taken
    as line 5. *)
Lemma menu_fragment_two_lines_witness :
  let p := mk_osd 5 (mk_context (Some MODE_MENU) 0 "Setup Menu" (-1) []) None in
  let q := snd (parse_response (snd (parse_response (new_OsdParser 5) 0 "NSE0Setup Menu"))
                  0 "NSE5") in
  screen_mode (context p) = Some MODE_MENU
  /\ Qle_bool (1 - last_update_time (context p)) (context_timeout p) = true
  /\ fst (parse_response (snd (parse_response p 1 "NSE2")) 1 "Selected Text")
     = Ret (Some ("osd_menu_item_update",
                  [("line", VInt 2); ("text", VStr "Selected Text");
                   ("is_selected", VBool true)]))
  /\ screen_mode (context q) = Some MODE_MENU
  /\ Qle_bool (10 - last_update_time (context q)) (context_timeout q) = false
  /\ pending_selected_line (snd (parse_response q 10 "NSE2")) = Some 5%Z
  /\ fst (parse_response (snd (parse_response q 10 "NSE2")) 10 "Selected Text")
     = Ret (Some ("osd_menu_item_update",
                  [("line", VInt 5); ("text", VStr "Selected Text");
                   ("is_selected", VBool true)])).
Proof.
  intros p q; split; [reflexivity|]; split; [reflexivity|].
  destruct (menu_fragment_two_lines p 1 1 eq_refl) as [H _].
  destruct (H eq_refl) as [_ [_ H1]].
  split; [exact H1|].
  assert (Hq : screen_mode (context q) = Some MODE_MENU) by (vm_compute; reflexivity).
  assert (Htq : Qle_bool (10 - last_update_time (context q)) (context_timeout q) = false)
    by (vm_compute; reflexivity).
  destruct (menu_fragment_two_lines q 10 10 Hq) as [_ H'].
  destruct (H' Htq) as [_ [H2 H3]].
  assert (Hpq : pending_selected_line q = Some 5%Z) by (vm_compute; reflexivity).
  rewrite Hpq in H2, H3.
  split; [exact Hq|]; split; [exact Htq|]; split; [exact H2|exact H3].
Defined.

(** ** Title lines *)

(** The parser state after a title line with cleaned text [text]. *)
Definition after_title (p : OsdParser) (now : Q) (text : string) : OsdParser :=
  let c := context p in
  if String.eqb text (screen_title c) then
    mk_osd (context_timeout p)
      (mk_context (Some (mode_of_title text)) now (screen_title c) (cursor_line c)
         (menu_items c))
      (pending_selected_line p)
  else
    mk_osd (context_timeout p) (mk_context (Some (mode_of_title text)) now text (-1) [])
      None.

Lemma match_nse_title (raw : string) : match_nse ("NSE0" ++ raw) = Some (0%Z, raw).
Proof. reflexivity. Qed.

Lemma parse_title_line (p : OsdParser) (now : Q) (raw : string) :
  parse_response p now ("NSE0" ++ raw)
  = (Ret (Some ("osd_title_update", [("text", VStr (_clean_osd_text raw))])),
     after_title p now (_clean_osd_text raw)).
Proof.
  apply parse_response_osd_event.
  rewrite osd_parse_nse_line by reflexivity.
  unfold osd_parse_nse; rewrite match_nse_title; cbn [Z.eqb].
  unfold _handle_title_line, after_title, _reset_context_if_timed_out.
  destruct p as [t [m l ti cu mi] pd]; cbn [context last_update_time context_timeout].
  destruct (negb (Qle_bool (now - l) t));
    cbn [context screen_title set_context set_time set_mode set_title set_pending
         context_timeout last_update_time pending_selected_line cursor_line menu_items
         screen_mode _create_default_context];
    destruct (String.eqb (_clean_osd_text raw) ti); reflexivity.
Qed.

(** A parser in now-playing mode (or with no mode after a timeout) reads a
    slot-1 line holding the now-playing byte and "Song A" as the track
    title. *)
Lemma parse_now_playing_title (p : OsdParser) (now : Q) :
  screen_mode (context p) = Some MODE_NOW_PLAYING ->
  fst (parse_response p now ("NSE1" ++ String NOW_PLAYING_CHAR "Song A"))
  = Ret (Some ("now_playing_title_update", [("text", VStr "Song A")])).
Proof.
  intros Hm.
  unfold parse_response; rewrite osd_parse_nse_line by reflexivity.
  unfold osd_parse_nse, _reset_context_if_timed_out.
  destruct p as [t [m l ti cu mi] pd]; cbn [context screen_mode] in Hm; subst m.
  cbn [context last_update_time context_timeout].
  destruct (negb (Qle_bool (now - l) t)); reflexivity.
Qed.

(** A parser in menu mode reads the same line as nothing when it arrives
    within the timeout (the now-playing byte marks no menu item), and as the
    now-playing track title after it (the reset mode is re-detected from the
    now-playing byte). *)
Lemma parse_menu_now_playing_byte (p : OsdParser) (now : Q) :
  screen_mode (context p) = Some MODE_MENU ->
  fst (parse_response p now ("NSE1" ++ String NOW_PLAYING_CHAR "Song A"))
  = if Qle_bool (now - last_update_time (context p)) (context_timeout p) then Ret None
    else Ret (Some ("now_playing_title_update", [("text", VStr "Song A")])).
Proof.
  intros Hm.
  unfold parse_response; rewrite osd_parse_nse_line by reflexivity.
  unfold osd_parse_nse, _reset_context_if_timed_out.
  destruct p as [t [m l ti cu mi] pd]; cbn [context screen_mode] in Hm; subst m.
  cbn [context last_update_time context_timeout].
  destruct (Qle_bool (now - l) t); reflexivity.
Qed.

Lemma after_title_mode (p : OsdParser) (now : Q) (text : string) :
  screen_mode (context (after_title p now text)) = Some (mode_of_title text).
Proof. unfold after_title; destruct (String.eqb _ _); reflexivity. Qed.

Lemma after_title_time (p : OsdParser) (now : Q) (text : string) :
  last_update_time (context (after_title p now text)) = now
  /\ context_timeout (after_title p now text) = context_timeout p.
Proof. unfold after_title; destruct (String.eqb _ _); split; reflexivity. Qed.

(** ** C3: slot 1 depends on the title *)

(** C3, counterexample: on a fresh parser, the title "Setup Menu" and then
    the slot-1 line with the now-playing byte and "Song A" yield no event at
    all, not a menu-item event. *)
Lemma now_playing_byte_under_setup_menu_counterexample :
  fst (parse_response (snd (parse_response (new_OsdParser 5) 0 "NSE0Setup Menu")) 0
         ("NSE1" ++ String NOW_PLAYING_CHAR "Song A"))
  = Ret None.
Proof. vm_compute; reflexivity. Qed.

(** C3 (amended): after the title "Now Playing", the slot-1 line with the
    now-playing byte and "Song A" yields the now-playing title event with
    text "Song A"; after the title "Setup Menu" the same line never yields a
    menu-item event: no event when it arrives within the inactivity timeout
    of the title, and the same now-playing title event after it. *)
Theorem slot1_now_playing_line_depends_on_title (p : OsdParser) (now0 now1 : Q) :
  fst (parse_response (snd (parse_response p now0 "NSE0Now Playing")) now1
         ("NSE1" ++ String NOW_PLAYING_CHAR "Song A"))
  = Ret (Some ("now_playing_title_update", [("text", VStr "Song A")]))
  /\ fst (parse_response (snd (parse_response p now0 "NSE0Setup Menu")) now1
            ("NSE1" ++ String NOW_PLAYING_CHAR "Song A"))
     = if Qle_bool (now1 - now0) (context_timeout p) then Ret None
       else Ret (Some ("now_playing_title_update", [("text", VStr "Song A")])).
Proof.
  split.
  - change "NSE0Now Playing" with ("NSE0" ++ "Now Playing").
    rewrite parse_title_line; cbn [snd].
    apply parse_now_playing_title; rewrite after_title_mode; reflexivity.
  - change "NSE0Setup Menu" with ("NSE0" ++ "Setup Menu").
    rewrite parse_title_line; cbn [snd].
    rewrite parse_menu_now_playing_byte by (rewrite after_title_mode; reflexivity).
    destruct (after_title_time p now0 (_clean_osd_text "Setup Menu")) as [-> ->].
    reflexivity.
Qed.

(** ** C4: an unchanged title *)

(** C4, counterexample: on a fresh parser (no mode, empty title) the title
    line "NSE0" carries the unchanged empty title, yet the mode changes from
    none to menu. *)
Lemma unchanged_title_sets_mode_counterexample :
  _clean_osd_text "" = screen_title (context (new_OsdParser 5))
  /\ screen_mode (context (new_OsdParser 5)) = None
  /\ screen_mode (context (snd (parse_response (new_OsdParser 5) 1 "NSE0")))
     = Some MODE_MENU.
Proof. split; [|split]; vm_compute; reflexivity. Qed.

(** C4 (amended): a title line whose cleaned text equals the stored title
    does not reset the context: title, cursor line, menu items and the
    pending fragment keep their values, the timestamp becomes [now] and the
    mode is set again from the title text (now playing, context menu or
    menu), which changes it when the stored mode was not derived from this
    title; the only event is the title update itself.  A title line with a
    different text resets the context: cursor -1, no items, no pending
    fragment, the new title and its mode. *)
Theorem title_line_resets_only_on_change (p : OsdParser) (now : Q) (raw : string) :
  (_clean_osd_text raw = screen_title (context p) ->
   parse_response p now ("NSE0" ++ raw)
   = (Ret (Some ("osd_title_update", [("text", VStr (screen_title (context p)))])),
      mk_osd (context_timeout p)
        (mk_context (Some (mode_of_title (screen_title (context p)))) now
           (screen_title (context p)) (cursor_line (context p)) (menu_items (context p)))
        (pending_selected_line p)))
  /\ (_clean_osd_text raw <> screen_title (context p) ->
      parse_response p now ("NSE0" ++ raw)
      = (Ret (Some ("osd_title_update", [("text", VStr (_clean_osd_text raw))])),
         mk_osd (context_timeout p)
           (mk_context (Some (mode_of_title (_clean_osd_text raw))) now
              (_clean_osd_text raw) (-1) [])
           None)).
Proof.
  rewrite parse_title_line; unfold after_title.
  split; intros H.
  - rewrite H, String.eqb_refl; reflexivity.
  - apply String.eqb_neq in H; rewrite H; reflexivity.
Qed.

(** Witness for C4 (amended): a parser whose context timed out (no mode),
    with title "Setup Menu", cursor line 3, one stored item and slot 2
    pending.  The unchanged title keeps cursor, item and pending slot and
    sets the mode to Menu again; the title "Audio" resets them. *)
Lemma title_line_resets_only_on_change_witness :
  let p := mk_osd 5 (mk_context None 0 "Setup Menu" 3 ((1%Z, "Audio") :: nil)) (Some 2%Z) in
  _clean_osd_text "Setup Menu" = screen_title (context p)
  /\ parse_response p 10 ("NSE0" ++ "Setup Menu")
     = (Ret (Some ("osd_title_update", [("text", VStr "Setup Menu")])),
        mk_osd 5 (mk_context (Some MODE_MENU) 10 "Setup Menu" 3 ((1%Z, "Audio") :: nil))
          (Some 2%Z))
  /\ _clean_osd_text "Audio" <> screen_title (context p)
  /\ parse_response p 10 ("NSE0" ++ "Audio")
     = (Ret (Some ("osd_title_update", [("text", VStr "Audio")])),
        mk_osd 5 (mk_context (Some MODE_MENU) 10 "Audio" (-1) []) None).
Proof.
  intros p.
  assert (E1 : _clean_osd_text "Setup Menu" = screen_title (context p))
    by (vm_compute; reflexivity).
  assert (E2 : _clean_osd_text "Audio" <> screen_title (context p))
    by (vm_compute; discriminate).
  destruct (title_line_resets_only_on_change p 10 "Setup Menu") as [H1 _].
  destruct (title_line_resets_only_on_change p 10 "Audio") as [_ H2].
  split; [exact E1|]; split; [rewrite (H1 E1); vm_compute; reflexivity|].
  split; [exact E2|]; rewrite (H2 E2); vm_compute; reflexivity.
Defined.

(** ** C9: the inactivity timeout *)

(** C9: when the inactivity timeout has passed, the reset clears the screen
    mode and sets the timestamp to [now], and keeps the title, cursor line,
    menu items and pending fragment.  A fragment buffered before the timeout
    survives a timed-out content line ("NSE" and a slot other than 0), and
    the next line that does not start with "NSE" is taken as the pending
    slot's text with [is_selected] true (a menu or context-menu item update,
    as the mode is then). *)
Theorem timeout_reset_keeps_fragment (p : OsdParser) (now now' : Q)
    (Ht : Qle_bool (now - last_update_time (context p)) (context_timeout p) = false) :
  _reset_context_if_timed_out p now
  = mk_osd (context_timeout p)
      (mk_context None now (screen_title (context p)) (cursor_line (context p))
         (menu_items (context p)))
      (pending_selected_line p)
  /\ (forall (n k : Z) (r raw r' : string),
        pending_selected_line p = Some n ->
        match_nse r = Some (k, raw) -> k <> 0%Z ->
        startswith "NSE" r' = false ->
        pending_selected_line (snd (parse_response p now r)) = Some n
        /\ exists name,
             (name = "osd_menu_item_update" \/ name = "osd_context_menu_item_update")
             /\ fst (parse_response (snd (parse_response p now r)) now' r')
                = Ret (Some (name, [("line", VInt n); ("text", VStr (_clean_osd_text r'));
                                    ("is_selected", VBool true)]))).
Proof.
  split.
  - unfold _reset_context_if_timed_out; rewrite Ht; reflexivity.
  - intros n k r raw r' Hp Hm Hk Hs.
    assert (Hp1 : pending_selected_line (snd (parse_response p now r)) = Some n).
    { rewrite parse_response_state, osd_parse_nse_line
        by exact (match_nse_startswith _ _ _ Hm).
      rewrite (osd_parse_nse_timed_out_pending p now r raw k Ht Hm Hk); exact Hp. }
    split; [exact Hp1|].
    rewrite (parse_response_osd_event _ _ _ _ _ (osd_parse_fragment _ now' r' n Hp1 Hs)).
    cbn [fst].
    destruct (screen_mode (context (snd (parse_response p now r)))) as [[| |]|].
    + eexists; split; [left; reflexivity | reflexivity].
    + eexists; split; [left; reflexivity | reflexivity].
    + eexists; split; [right; reflexivity | reflexivity].
    + eexists; split; [left; reflexivity | reflexivity].
Qed.

(** Witness for C9: slot 3 pending in Menu mode, last update at 0, timeout
    5; the line "NSE5" with a menu-item byte and "Foo" arrives at 10, then
    the line "Bar". *)
Lemma timeout_reset_keeps_fragment_witness :
  let p := mk_osd 5 (mk_context (Some MODE_MENU) 0 "Setup Menu" (-1) []) (Some 3%Z) in
  Qle_bool (10 - last_update_time (context p)) (context_timeout p) = false
  /\ pending_selected_line (snd (parse_response p 10 ("NSE5" ++ String MENU_ITEM_CHAR "Foo")))
     = Some 3%Z.
Proof.
  intros p; split; [reflexivity|].
  destruct (timeout_reset_keeps_fragment p 10 11 eq_refl) as [_ H].
  destruct (H 3%Z 5%Z ("NSE5" ++ String MENU_ITEM_CHAR "Foo")
              (String MENU_ITEM_CHAR "Foo") "Bar" eq_refl eq_refl
              ltac:(discriminate) eq_refl) as [H1 _].
  exact H1.
Defined.

(** * Further properties of the code *)

(** ** Line reassembly in the Telnet listener *)

(** The pieces of [s] between its carriage returns: the complete pieces
    (each followed by a [b'\r']) and the incomplete rest. *)
Fixpoint cr_segments (s : string) : list string * string :=
  match s with
  | EmptyString => ([], EmptyString)
  | String c s' =>
      let (ls, b) := cr_segments s' in
      if Ascii.eqb c CR then (EmptyString :: ls, b)
      else match ls with
           | [] => ([], String c b)
           | l :: ls' => (String c l :: ls', b)
           end
  end.

(** The [data_callback] arguments for complete pieces [ls]. *)
Definition emit_lines (ls : list string) : list string :=
  flat_map (fun l => if String.eqb l "" then [] else [l ++ str1 CR]) ls.

Lemma str_app_assoc (a b c : string) : a ++ (b ++ c) = (a ++ b) ++ c.
Proof. induction a as [|x a IH]; simpl; [reflexivity | now rewrite IH]. Qed.

Lemma str_app_nil (a : string) : a ++ "" = a.
Proof. induction a as [|x a IH]; simpl; [reflexivity | now rewrite IH]. Qed.

Lemma split_cr_none (s : string) : split_cr s = None -> cr_segments s = ([], s).
Proof.
  induction s as [|c s IH]; simpl; [reflexivity|].
  destruct (Ascii.eqb c CR); [discriminate|].
  destruct (split_cr s) as [[l r]|]; [discriminate|].
  intros _; rewrite (IH eq_refl); reflexivity.
Qed.

Lemma split_cr_some (s l r : string) :
  split_cr s = Some (l, r) ->
  cr_segments s = (l :: fst (cr_segments r), snd (cr_segments r))
  /\ (String.length r < String.length s)%nat.
Proof.
  revert l; induction s as [|c s IH]; intros l; simpl; [discriminate|].
  destruct (Ascii.eqb c CR) eqn:Ec.
  - intros H; injection H as <- <-.
    destruct (cr_segments s); simpl; split; [reflexivity | lia].
  - destruct (split_cr s) as [[l' r']|] eqn:Es; [|discriminate].
    intros H; injection H as <- <-.
    destruct (IH l' eq_refl) as [H1 H2]; rewrite H1; split; [reflexivity | lia].
Qed.

Lemma drain_buffer_segments (f : nat) (s : string) :
  (String.length s < f)%nat ->
  drain_buffer f s = (emit_lines (fst (cr_segments s)), snd (cr_segments s)).
Proof.
  revert s; induction f as [|f IH]; intros s Hf; [lia|]; simpl.
  destruct (split_cr s) as [[l r]|] eqn:Es.
  - destruct (split_cr_some _ _ _ Es) as [H1 H2].
    rewrite (IH r ltac:(lia)), H1; reflexivity.
  - rewrite (split_cr_none _ Es); reflexivity.
Qed.

Lemma cr_segments_app (a b : string) :
  cr_segments (a ++ b)
  = let (la, ra) := cr_segments a in
    let (lb, rb) := cr_segments (ra ++ b) in (la ++ lb, rb)%list.
Proof.
  induction a as [|c a IH]; simpl.
  - destruct (cr_segments b); reflexivity.
  - rewrite IH.
    destruct (cr_segments a) as [la ra].
    destruct (cr_segments (ra ++ b)) as [lb rb] eqn:Eb.
    destruct (Ascii.eqb c CR) eqn:Ec; [rewrite Eb; reflexivity|].
    destruct la as [|l la]; simpl; rewrite ?Eb, ?Ec; [|reflexivity].
    destruct lb; reflexivity.
Qed.

Lemma emit_lines_app (l1 l2 : list string) :
  emit_lines (l1 ++ l2) = (emit_lines l1 ++ emit_lines l2)%list.
Proof. unfold emit_lines; apply flat_map_app. Qed.

Lemma receive_chunk_segments (buf c : string) :
  receive_chunk buf c
  = (emit_lines (fst (cr_segments (buf ++ c))), snd (cr_segments (buf ++ c))).
Proof. unfold receive_chunk; apply drain_buffer_segments; lia. Qed.

Lemma cr_segments_no_cr (s : string) :
  Forall (fun l => str_mem CR l = false) (fst (cr_segments s))
  /\ str_mem CR (snd (cr_segments s)) = false.
Proof.
  induction s as [|c s [IH1 IH2]]; simpl; [split; [constructor | reflexivity]|].
  destruct (cr_segments s) as [ls b]; simpl in *.
  destruct (Ascii.eqb c CR) eqn:Ec; [split; [constructor; [reflexivity | exact IH1] | exact IH2]|].
  rewrite Ascii.eqb_sym in Ec.
  destruct ls as [|l ls]; simpl.
  - split; [constructor | rewrite Ec; exact IH2].
  - inversion IH1; subst; split; [constructor; [simpl; rewrite Ec; assumption | assumption] | exact IH2].
Qed.

(** X1: The listener hands the same lines to [data_callback], and keeps the same
    buffer, whether two pieces of the byte stream arrive as one chunk or as
    two chunks: the reassembly does not depend on how TCP cuts the stream. *)
Theorem receive_chunk_split (buf c1 c2 : string) :
  receive_chunk buf (c1 ++ c2)
  = let (l1, b1) := receive_chunk buf c1 in
    let (l2, b2) := receive_chunk b1 c2 in (l1 ++ l2, b2)%list.
Proof.
  rewrite (receive_chunk_segments buf (c1 ++ c2)), (receive_chunk_segments buf c1),
    str_app_assoc, cr_segments_app.
  destruct (cr_segments (buf ++ c1)) as [la ra]; cbn [fst snd].
  rewrite (receive_chunk_segments ra c2).
  destruct (cr_segments (ra ++ c2)) as [lb rb]; cbn [fst snd].
  rewrite emit_lines_app; reflexivity.
Qed.

(** X2: Every line the listener hands to [data_callback] is a non-empty run of
    bytes without [b'\r'] followed by one [b'\r'], and the buffer kept for
    the next chunk holds no [b'\r']. *)
Theorem receive_chunk_lines (buf c : string) :
  (forall x, In x (fst (receive_chunk buf c)) ->
     exists l, x = l ++ str1 CR /\ l <> "" /\ str_mem CR l = false)
  /\ str_mem CR (snd (receive_chunk buf c)) = false.
Proof.
  rewrite receive_chunk_segments; simpl.
  destruct (cr_segments_no_cr (buf ++ c)) as [H1 H2].
  split; [|exact H2].
  intros x Hx; unfold emit_lines in Hx.
  apply in_flat_map in Hx as [l [Hl Hx]].
  rewrite Forall_forall in H1.
  destruct (String.eqb l "") eqn:El; [destruct Hx|].
  destruct Hx as [<-|[]].
  exists l; split; [reflexivity|]; split; [apply String.eqb_neq; exact El | exact (H1 l Hl)].
Qed.

(** Witness for [receive_chunk_lines]: a chunk that completes a line and
    starts the next one. *)
Lemma receive_chunk_lines_witness :
  fst (receive_chunk "AB" (String CR "C")) = (("AB" ++ str1 CR) :: nil)
  /\ str_mem CR (snd (receive_chunk "AB" (String CR "C"))) = false.
Proof.
  split; [vm_compute; reflexivity | exact (proj2 (receive_chunk_lines "AB" (String CR "C")))].
Defined.

(** ** Line splitting in the event handler *)

Definition nonblank (part : string) : bool := negb (String.eqb (py_strip part) "").

(** One [process_data] run followed by another from the state it left,
    unless the first one was left by an exception. *)
Definition seq_runs (r1 : handler_run) (next : nat -> OsdParser -> handler_run) : handler_run :=
  match raised r1 with
  | Some _ => r1
  | None =>
      let r2 := next (clock_after r1) (osd_after r1) in
      mk_run (emitted r1 ++ emitted r2) (raised r2) (osd_after r2) (clock_after r2)
  end.

Lemma handle_parts_filter (clock : nat -> Q) (parts : list string) :
  forall k osd, handle_parts clock k osd parts = handle_parts clock k osd (filter nonblank parts).
Proof.
  induction parts as [|a parts IH]; intros k osd; [reflexivity|].
  cbn [handle_parts filter]; unfold nonblank at 1.
  destruct (String.eqb (py_strip a) "") eqn:Ea; cbn [negb handle_parts]; rewrite ?Ea; [apply IH|].
  destruct (parse_response osd (clock k) (py_strip a)) as [[[e|]|x] osd1];
    rewrite ?IH; reflexivity.
Qed.

Lemma handle_parts_app (clock : nat -> Q) (l1 l2 : list string) :
  forall k osd,
  handle_parts clock k osd (l1 ++ l2)
  = seq_runs (handle_parts clock k osd l1) (fun k' osd' => handle_parts clock k' osd' l2).
Proof.
  induction l1 as [|a l1 IH]; intros k osd.
  - unfold seq_runs; cbn; destruct (handle_parts clock k osd l2); reflexivity.
  - cbn [app handle_parts].
    destruct (String.eqb (py_strip a) ""); [apply IH|].
    destruct (parse_response osd (clock k) (py_strip a)) as [[[e|]|x] osd1]; [| apply IH | reflexivity].
    rewrite IH; unfold seq_runs.
    destruct (handle_parts clock (S k) osd1 l1) as [em ra oa ca].
    cbn [raised emitted osd_after clock_after]; destruct ra; reflexivity.
Qed.

Lemma split_runs_in_run (s : string) :
  filter nonblank (split_runs "" true s) = filter nonblank (split_runs "" false s).
Proof.
  destruct s as [|c s]; [reflexivity|]; cbn [split_runs].
  destruct (is_newline c); reflexivity.
Qed.

Lemma split_runs_app (d : ascii) (s2 : string) (Hd : is_newline d = true) :
  forall s1 cur in_run, (in_run = true -> cur = "") ->
  filter nonblank (split_runs cur in_run (s1 ++ String d s2))
  = (filter nonblank (split_runs cur in_run s1) ++ filter nonblank (split_runs "" false s2))%list.
Proof.
  induction s1 as [|c s1 IH]; intros cur in_run Hc.
  - cbn [append split_runs]; rewrite Hd.
    destruct in_run.
    + rewrite (Hc eq_refl), split_runs_in_run; reflexivity.
    + cbn [filter]; rewrite split_runs_in_run; destruct (nonblank cur); reflexivity.
  - cbn [append split_runs].
    destruct (is_newline c).
    + destruct in_run.
      * apply IH; exact Hc.
      * cbn [filter]; rewrite IH by reflexivity; destruct (nonblank cur); reflexivity.
    + apply IH; discriminate.
Qed.

Lemma str_forall_app (f : ascii -> bool) (a b : string) :
  str_forall f (a ++ b) = str_forall f a && str_forall f b.
Proof. induction a as [|c a IH]; simpl; [reflexivity | rewrite IH; apply andb_assoc]. Qed.

Lemma split_runs_no_newline (s : string) :
  forall cur in_run, str_forall (fun c => negb (is_newline c)) cur = true ->
  Forall (fun part => str_forall (fun c => negb (is_newline c)) part = true)
    (split_runs cur in_run s).
Proof.
  induction s as [|c s IH]; intros cur in_run Hc; cbn [split_runs]; [constructor; auto|].
  destruct (is_newline c) eqn:Ec.
  - destruct in_run; [apply IH; exact Hc|].
    constructor; [exact Hc | apply IH; reflexivity].
  - apply IH; rewrite str_forall_app, Hc; cbn; rewrite Ec; reflexivity.
Qed.

(** X3: The event handler gives the same result whether two texts come in one
    callback, joined by a carriage return or a newline, or in two callbacks
    one after the other: the events of the first, then those of the second
    from the parser state and clock the first left; and if a line of the
    first raised, the second is not parsed at all. *)
Theorem process_data_split (clock : nat -> Q) (k : nat) (osd : OsdParser)
    (s1 s2 : string) (d : ascii) (Hd : is_newline d = true) :
  process_data clock k osd (s1 ++ String d s2)
  = seq_runs (process_data clock k osd s1) (fun k' osd' => process_data clock k' osd' s2).
Proof.
  unfold process_data, re_split_nl.
  rewrite handle_parts_filter, split_runs_app by (assumption || discriminate).
  rewrite handle_parts_app, <- handle_parts_filter.
  unfold seq_runs; destruct (raised _); [reflexivity|].
  rewrite <- handle_parts_filter; reflexivity.
Qed.

(** Witness for [process_data_split]: "MV50" and "MU" "ON" joined by a
    carriage return, from a fresh parser. *)
Lemma process_data_split_witness :
  is_newline CR = true
  /\ process_data (fun _ => 0) 0 (new_OsdParser 5) ("MV50" ++ String CR "MUON")
     = seq_runs (process_data (fun _ => 0) 0 (new_OsdParser 5) "MV50")
         (fun k' osd' => process_data (fun _ => 0) k' osd' "MUON").
Proof.
  split; [reflexivity|].
  exact (process_data_split (fun _ => 0) 0 (new_OsdParser 5) "MV50" "MUON" CR eq_refl).
Defined.

(** X4: No part the event handler takes from [re.split(r'[\r\n]+', ...)], and
    so no line it passes to [parse_response] (the stripped part), holds a
    carriage return or a newline. *)
Theorem process_data_parts_have_no_newline (s part : string) :
  In part (re_split_nl s) -> str_mem CR part = false /\ str_mem LF part = false.
Proof.
  intros Hin.
  pose proof (split_runs_no_newline s "" false eq_refl) as H.
  rewrite Forall_forall in H; specialize (H part Hin); clear Hin.
  induction part as [|c part IHp]; [split; reflexivity|].
  cbn [str_forall] in H; apply andb_prop in H as [Hc Hp].
  unfold is_newline in Hc.
  destruct (Ascii.eqb c CR) eqn:E1, (Ascii.eqb c LF) eqn:E2; try discriminate.
  cbn [str_mem]; rewrite (Ascii.eqb_sym CR c), E1, (Ascii.eqb_sym LF c), E2.
  exact (IHp Hp).
Qed.

(** Witness for [process_data_parts_have_no_newline]: the part after a
    line feed. *)
Lemma process_data_parts_have_no_newline_witness :
  In "B" (re_split_nl ("A" ++ String LF "B"))
  /\ str_mem CR "B" = false /\ str_mem LF "B" = false.
Proof.
  assert (Hin : In "B" (re_split_nl ("A" ++ String LF "B"))) by (vm_compute; auto).
  split; [exact Hin | exact (process_data_parts_have_no_newline _ "B" Hin)].
Defined.

(** ** Status lines in [parse_response] *)

Lemma match_nse_not_nse (r : string) : startswith "NSE" r = false -> match_nse r = None.
Proof.
  intros H; destruct (match_nse r) as [[k raw]|] eqn:E; [|reflexivity].
  rewrite (match_nse_startswith _ _ _ E) in H; discriminate.
Qed.

(** A line that is not an OSD line goes to the table and leaves the parser
    as it was. *)
Lemma parse_response_dispatch (p : OsdParser) (now : Q) (r : string) :
  (pending_selected_line p = None \/ startswith "NSE" r = true) ->
  match_nse r = None ->
  parse_response p now r = (dispatch PARSER_CONFIG r, p).
Proof.
  intros Hc Hm; unfold parse_response, osd_parse.
  destruct (pending_selected_line p) eqn:Ep.
  - destruct Hc as [Hc|Hc]; [discriminate|].
    rewrite Hc; cbn [negb]; unfold osd_parse_nse; rewrite Hm; reflexivity.
  - unfold osd_parse_nse; rewrite Hm; reflexivity.
Qed.

(** Walks the table on a line that starts with literal characters. *)
Lemma py_int_digits_short (d : string) :
  (String.length d <= 4300)%nat -> py_int_digits d = Ret (digits_value d).
Proof.
  intros H; unfold py_int_digits.
  replace (Nat.ltb 4300 (String.length d)) with false
    by (symmetry; apply Nat.ltb_ge; exact H).
  reflexivity.
Qed.

Lemma py_int_digits_long (d : string) :
  (4300 < String.length d)%nat -> py_int_digits d = Raise "ValueError".
Proof.
  intros H; unfold py_int_digits.
  replace (Nat.ltb 4300 (String.length d)) with true
    by (symmetry; apply Nat.ltb_lt; exact H).
  reflexivity.
Qed.

Ltac dispatch_lits :=
  repeat progress (cbn [dispatch PARSER_CONFIG full data data_raising entry_prefix
                        startswith append andb orb negb]; eqb_lits).

Ltac status_line :=
  rewrite parse_response_dispatch by (first [left; assumption | right; reflexivity]
                                      || (apply match_nse_not_nse; reflexivity));
  dispatch_lits; cbn [apply_entry entry_parser data data_raising full].

(** X6: A line that is not an OSD line ([NSE] and a digit) leaves the OSD
    parser's state untouched, timestamp included, and is decoded by the table
    alone, when no fragment is pending or the line starts with [NSE]. *)
Theorem status_line_keeps_osd_state (p : OsdParser) (now : Q) (r : string)
    (Hc : pending_selected_line p = None \/ startswith "NSE" r = true)
    (Hm : match_nse r = None) :
  parse_response p now r = (dispatch PARSER_CONFIG r, p).
Proof.
  unfold parse_response, osd_parse.
  destruct (pending_selected_line p) eqn:Ep.
  - destruct Hc as [Hc|Hc]; [discriminate|].
    rewrite Hc; cbn [negb]; unfold osd_parse_nse; rewrite Hm; reflexivity.
  - unfold osd_parse_nse; rewrite Hm; reflexivity.
Qed.

(** Witness for [status_line_keeps_osd_state]: "NSEXT ON" while slot 2 is
    pending in a menu. *)
Lemma status_line_keeps_osd_state_witness :
  let p := mk_osd 5 (mk_context (Some MODE_MENU) 0 "Setup Menu" (-1) []) (Some 2%Z) in
  (pending_selected_line p = None \/ startswith "NSE" "NSEXT ON" = true)
  /\ match_nse "NSEXT ON" = None
  /\ parse_response p 1 "NSEXT ON"
     = (Ret (Some ("nse_extended_update", [("state", VStr "on")])), p).
Proof.
  intros p; split; [right; reflexivity|]; split; [reflexivity|].
  rewrite (status_line_keeps_osd_state p 1 "NSEXT ON" (or_intror eq_refl) eq_refl).
  reflexivity.
Defined.

(** X7: [str.isdigit] accepts the superscript digits, [int] refuses them: a
    tuner frequency line "TFAN" whose stripped rest is made of digits of
    which one is a superscript makes [parse_response] raise [ValueError]
    (when no fragment is pending), leaving the parser state as it was. *)
Theorem tuner_superscript_digit_raises (p : OsdParser) (now : Q) (s : string)
    (Hp : pending_selected_line p = None)
    (Hne : py_strip s <> "")
    (Hdig : str_forall py_isdigit_char (py_strip s) = true)
    (Hsup : str_forall is_digit (py_strip s) = false) :
  parse_response p now ("TFAN" ++ s) = (Raise "ValueError", p).
Proof.
  status_line.
  unfold _parse_tuner_status.
  cbn [strip_prefix append]; eqb_lits.
  apply String.eqb_neq in Hne; rewrite Hne, Hdig, Hsup; reflexivity.
Qed.

(** Witness for [tuner_superscript_digit_raises]: "TFAN" and the
    superscript two. *)
Lemma tuner_superscript_digit_raises_witness :
  py_strip (str1 (chr 178)) <> ""
  /\ parse_response (new_OsdParser 5) 0 ("TFAN" ++ str1 (chr 178))
     = (Raise "ValueError", new_OsdParser 5).
Proof.
  split; [discriminate|].
  exact (tuner_superscript_digit_raises (new_OsdParser 5) 0 (str1 (chr 178))
           eq_refl ltac:(discriminate) eq_refl eq_refl).
Defined.

(** X5: The event handler abandons the rest of its text at the first line whose
    parsing raises: whatever follows that line (after a carriage return or a
    newline) is not parsed and emits nothing. *)
Theorem process_data_stops_at_exception (clock : nat -> Q) (k : nat) (osd : OsdParser)
    (s1 s2 : string) (d : ascii) (x : string)
    (Hd : is_newline d = true)
    (Hx : raised (process_data clock k osd s1) = Some x) :
  process_data clock k osd (s1 ++ String d s2) = process_data clock k osd s1.
Proof.
  unfold process_data, re_split_nl in *.
  rewrite handle_parts_filter, split_runs_app by (assumption || discriminate).
  rewrite handle_parts_app, <- handle_parts_filter.
  unfold seq_runs; rewrite Hx; reflexivity.
Qed.

(** Witness for [process_data_stops_at_exception]: the tuner line with a
    superscript two, then "MV50". *)
Lemma process_data_stops_at_exception_witness :
  raised (process_data (fun _ => 0) 0 (new_OsdParser 5) ("TFAN" ++ str1 (chr 178)))
    = Some "ValueError"
  /\ process_data (fun _ => 0) 0 (new_OsdParser 5)
       (("TFAN" ++ str1 (chr 178)) ++ String CR "MV50")
     = process_data (fun _ => 0) 0 (new_OsdParser 5) ("TFAN" ++ str1 (chr 178)).
Proof.
  split; [vm_compute; reflexivity|].
  apply (process_data_stops_at_exception (fun _ => 0) 0 (new_OsdParser 5)
           ("TFAN" ++ str1 (chr 178)) "MV50" CR "ValueError" eq_refl).
  vm_compute; reflexivity.
Defined.

(** X9: A sleep timer line "SLP" and at most 4300 digits reports the number
    of minutes, and 0 minutes (the receiver's SLP000 at expiry) as the timer
    being off. *)
Theorem sleep_timer_decodes_minutes (p : OsdParser) (now : Q) (d : string)
    (Hp : pending_selected_line p = None) (Hd : all_digits d = true)
    (Hlen : (String.length d <= 4300)%nat) :
  parse_response p now ("SLP" ++ d)
  = (Ret (Some ("sleep_timer_update",
                if (digits_value d =? 0)%Z then [("state", VStr "off")]
                else [("state", VStr "on"); ("minutes", VInt (digits_value d))])), p).
Proof.
  status_line.
  unfold _parse_sleep_timer.
  destruct (all_digits_cons d Hd) as [c [d' [-> Hc]]].
  cbn [String.eqb append]; eqb_lits; digit_neqs c Hc; cbn [andb].
  unfold re_prefix; cbn [strip_prefix]; eqb_lits; rewrite (digits_eol_all _ Hd).
  unfold int_payload; rewrite (py_int_digits_short _ Hlen).
  destruct (digits_value (String c d') =? 0)%Z; reflexivity.
Qed.

(** Witness for [sleep_timer_decodes_minutes]: "SLP060" is 60 minutes. *)
Lemma sleep_timer_decodes_minutes_witness :
  all_digits "060" = true
  /\ fst (parse_response (new_OsdParser 5) 0 ("SLP" ++ "060"))
     = Ret (Some ("sleep_timer_update", [("state", VStr "on"); ("minutes", VInt 60)])).
Proof.
  split; [reflexivity|].
  rewrite (sleep_timer_decodes_minutes (new_OsdParser 5) 0 "060" eq_refl eq_refl
             ltac:(cbn; lia)).
  reflexivity.
Defined.

(** X10: The center gain takes exactly two digits, as tenths of a decibel:
    "PSCEG" and two digits (with or without a space) gives their value
    divided by 10, and three digits give no event. *)
Theorem center_gain_two_digits (p : OsdParser) (now : Q) (sp : string) (a b c : ascii)
    (Hp : pending_selected_line p = None) (Hsp : sp = "" \/ sp = " ")
    (Ha : is_digit a = true) (Hb : is_digit b = true) (Hc : is_digit c = true) :
  parse_response p now ("PSCEG" ++ sp ++ String a (str1 b))
  = (Ret (Some ("center_gain_update",
                [("value", VNum (inject_Z (digits_value (String a (str1 b))) / 10))])), p)
  /\ parse_response p now ("PSCEG" ++ String a (String b (str1 c))) = (Ret None, p).
Proof.
  split.
  - destruct Hsp as [->| ->]; status_line; unfold _parse_center_gain, re_prefix;
      cbn [strip_prefix append]; eqb_lits; unfold opt_space, two_digits_eol, str1.
    + rewrite (digit_not_space a Ha), Ha, Hb; reflexivity.
    + change (py_isspace " ") with true; cbn iota beta.
      rewrite Ha, Hb; reflexivity.
  - status_line; unfold _parse_center_gain, re_prefix;
      cbn [strip_prefix append]; eqb_lits; unfold opt_space, two_digits_eol, str1.
    rewrite (digit_not_space a Ha), Ha, Hb.
    cbn [andb py_eol str1]; unfold py_eol.
    rewrite (proj2 (String.eqb_neq _ _)) by discriminate.
    destruct (String.eqb (String c "") (str1 (chr 10))) eqn:E; [|reflexivity].
    apply String.eqb_eq in E; injection E as ->; discriminate.
Qed.

(** Witness for [center_gain_two_digits]: "PSCEG05" is 0.5 and "PSCEG105"
    gives nothing. *)
Lemma center_gain_two_digits_witness :
  parse_response (new_OsdParser 5) 0 ("PSCEG" ++ "" ++ String "0" (str1 "5"))
  = (Ret (Some ("center_gain_update",
                [("value", VNum (inject_Z (digits_value "05") / 10))])), new_OsdParser 5)
  /\ parse_response (new_OsdParser 5) 0 ("PSCEG" ++ String "1" (String "0" (str1 "5")))
     = (Ret None, new_OsdParser 5).
Proof.
  exact (center_gain_two_digits (new_OsdParser 5) 0 "" "0" "5" "1"
           eq_refl (or_introl eq_refl) eq_refl eq_refl eq_refl).
Defined.

(** X11: A play state line "NSF " or "CRPLYSTS " reports the whole rest of the
    line as the state, spaces included. *)
Theorem play_state_takes_rest (p : OsdParser) (now : Q) (s : string)
    (Hp : pending_selected_line p = None) :
  parse_response p now ("NSF " ++ s)
  = (Ret (Some ("play_state_update", [("state", VStr s)])), p)
  /\ parse_response p now ("CRPLYSTS " ++ s)
     = (Ret (Some ("play_state_update", [("state", VStr s)])), p).
Proof.
  split; status_line; unfold _parse_play_state; cbn [startswith append after_first_space];
    eqb_lits; reflexivity.
Qed.

(** Witness for [play_state_takes_rest]: "NSF PLAY" and "CRPLYSTS PAUSE". *)
Lemma play_state_takes_rest_witness :
  parse_response (new_OsdParser 5) 0 ("NSF " ++ "PLAY")
  = (Ret (Some ("play_state_update", [("state", VStr "PLAY")])), new_OsdParser 5)
  /\ parse_response (new_OsdParser 5) 0 ("CRPLYSTS " ++ "PAUSE")
     = (Ret (Some ("play_state_update", [("state", VStr "PAUSE")])), new_OsdParser 5).
Proof.
  destruct (play_state_takes_rest (new_OsdParser 5) 0 "PLAY" eq_refl) as [H1 _].
  destruct (play_state_takes_rest (new_OsdParser 5) 0 "PAUSE" eq_refl) as [_ H2].
  split; [exact H1 | exact H2].
Defined.

(** X12: The LFE, bass and treble lines ("PSLFE", "PSBAS", "PSTRE", an optional
    space and at most 4300 digits) report the raw integer level, leading
    zeros dropped, without any scaling. *)
Theorem tone_levels_raw (p : OsdParser) (now : Q) (sp d : string)
    (Hp : pending_selected_line p = None) (Hsp : sp = "" \/ sp = " ")
    (Hd : all_digits d = true) (Hlen : (String.length d <= 4300)%nat) :
  parse_response p now ("PSLFE" ++ sp ++ d)
  = (Ret (Some ("lfe_level_update", [("level", VInt (digits_value d))])), p)
  /\ parse_response p now ("PSBAS" ++ sp ++ d)
     = (Ret (Some ("bass_level_update", [("level", VInt (digits_value d))])), p)
  /\ parse_response p now ("PSTRE" ++ sp ++ d)
     = (Ret (Some ("treble_level_update", [("level", VInt (digits_value d))])), p).
Proof.
  assert (Hk : opt_space digits_eol (sp ++ d) = Some d).
  { destruct Hsp as [->| ->]; [exact (opt_space_digits_all d Hd)|].
    cbn [append]; unfold opt_space; change (py_isspace " ") with true; cbn iota.
    rewrite (digits_eol_all d Hd); reflexivity. }
  split; [|split]; status_line; unfold _create_numeric_parser, re_prefix;
    cbn [strip_prefix]; eqb_lits; rewrite Hk;
    unfold int_payload; rewrite (py_int_digits_short _ Hlen); reflexivity.
Qed.

(** Witness for [tone_levels_raw]: a level of 50 with a space. *)
Lemma tone_levels_raw_witness :
  fst (parse_response (new_OsdParser 5) 0 ("PSBAS" ++ " " ++ "50"))
  = Ret (Some ("bass_level_update", [("level", VInt 50)])).
Proof.
  destruct (tone_levels_raw (new_OsdParser 5) 0 " " "50" eq_refl (or_intror eq_refl) eq_refl
              ltac:(cbn; lia))
    as [_ [H _]].
  rewrite H; reflexivity.
Defined.

(** X13: A line "SYPANEL+V" never reaches [_parse_system_lock]: the table only
    has the prefixes "SYREMOTE LOCK" and "SYPANEL LOCK", so [parse_response]
    gives no event for it, although [_parse_system_lock] itself decodes
    "SYPANEL+V LOCK ON" as a panel lock update. *)
Theorem panel_plus_v_lock_never_decoded (p : OsdParser) (now : Q) (s : string)
    (Hp : pending_selected_line p = None) :
  _parse_system_lock "SYPANEL+V LOCK ON" = Some ("panel_lock_update", [("state", VStr "on")])
  /\ parse_response p now ("SYPANEL+V" ++ s) = (Ret None, p).
Proof.
  split; [vm_compute; reflexivity|].
  status_line; reflexivity.
Qed.

(** Witness for [panel_plus_v_lock_never_decoded]: "SYPANEL+V LOCK ON". *)
Lemma panel_plus_v_lock_never_decoded_witness :
  parse_response (new_OsdParser 5) 0 ("SYPANEL+V" ++ " LOCK ON") = (Ret None, new_OsdParser 5).
Proof.
  exact (proj2 (panel_plus_v_lock_never_decoded (new_OsdParser 5) 0 " LOCK ON" eq_refl)).
Defined.

Lemma py_rstrip_nonspace (s : string) :
  str_forall (fun c => negb (py_isspace c)) s = true -> py_rstrip s = s.
Proof.
  induction s as [|c s IH]; [reflexivity|]; cbn [str_forall py_rstrip].
  intros H; apply andb_prop in H as [Hc Hs]; rewrite (IH Hs).
  destruct s; [|reflexivity].
  destruct (py_isspace c); [discriminate | reflexivity].
Qed.

Lemma digits_nonspace (d : string) :
  str_forall is_digit d = true -> str_forall (fun c => negb (py_isspace c)) d = true.
Proof.
  induction d as [|c d IH]; [reflexivity|]; cbn [str_forall].
  intros H; apply andb_prop in H as [Hc Hd].
  rewrite (digit_not_space c Hc), (IH Hd); reflexivity.
Qed.

Lemma py_strip_digits (d : string) : all_digits d = true -> py_strip d = d.
Proof.
  intros H; destruct (all_digits_cons d H) as [c [d' [-> Hc]]].
  unfold all_digits in H; apply andb_prop in H as [_ Hd].
  unfold py_strip; cbn [py_lstrip]; rewrite (digit_not_space c Hc).
  apply py_rstrip_nonspace, digits_nonspace, Hd.
Qed.

Lemma digits_isdigit (d : string) :
  str_forall is_digit d = true -> str_forall py_isdigit_char d = true.
Proof.
  induction d as [|c d IH]; [reflexivity|]; cbn [str_forall].
  intros H; apply andb_prop in H as [Hc Hd].
  rewrite (IH Hd); unfold py_isdigit_char; rewrite Hc; reflexivity.
Qed.

Lemma digits_no_point (d : string) : str_forall is_digit d = true -> str_mem "." d = false.
Proof.
  induction d as [|c d IH]; [reflexivity|]; cbn [str_forall str_mem].
  intros H; apply andb_prop in H as [Hc Hd].
  rewrite Ascii.eqb_sym, (digit_neq c "." Hc eq_refl), (IH Hd); reflexivity.
Qed.

(** *** Rounding lemmas *)

Lemma round_half_even_spec (n d : Z) :
  (0 < d)%Z -> (Z.abs (2 * n - 2 * d * round_half_even n d) <= d)%Z.
Proof.
  intros Hd; unfold round_half_even.
  pose proof (Z.div_mod n d ltac:(lia)) as Hn.
  pose proof (Z.mod_pos_bound n d Hd) as Hr.
  set (q := (n / d)%Z) in *; set (r := (n mod d)%Z) in *.
  destruct (2 * r <? d)%Z eqn:E1; [apply Z.ltb_lt in E1; lia|].
  apply Z.ltb_ge in E1.
  destruct (d <? 2 * r)%Z eqn:E2; [apply Z.ltb_lt in E2; lia|].
  apply Z.ltb_ge in E2.
  destruct (Z.even q); lia.
Qed.

Lemma round_half_even_unique (n d v : Z) :
  (0 < d)%Z -> (Z.abs (2 * n - 2 * d * v) < d)%Z -> round_half_even n d = v.
Proof.
  intros Hd Hv; pose proof (round_half_even_spec n d Hd) as Hm.
  set (m := round_half_even n d) in *.
  assert (Ht : (Z.abs (d * (m - v)) < d)%Z) by lia.
  rewrite Z.abs_mul, (Z.abs_eq d) in Ht by lia.
  assert (Z.abs (m - v) < 1)%Z by nia.
  lia.
Qed.

Lemma pow2_pos (k : Z) : (0 < 2 ^ k)%Z \/ (k < 0)%Z.
Proof.
  destruct (Z.ltb_spec k 0); [right; lia | left; apply Z.pow_pos_nonneg; lia].
Qed.

Lemma binary64_exp_le (n d : Z) : (binary64_exp n d <= Z.log2 n - Z.log2 d - 52)%Z.
Proof.
  unfold binary64_exp; destruct (scale_frac n d _) as [a b].
  destruct (a / b <? 2 ^ 52)%Z; lia.
Qed.

(** In the range of the doubles of fractional exponent, [round_binary64 n d]
    is [m * 2 ^ (- s)] with [m] the nearest integer to [n * 2 ^ s / d], and
    [s] at least [52 + log2 d - log2 n]. *)
Lemma round_binary64_error (n d : Z) :
  (0 < n)%Z -> (0 < d)%Z -> (Z.log2 n - Z.log2 d <= 51)%Z ->
  exists s m : Z,
    (1 <= s)%Z /\ (52 + Z.log2 d - Z.log2 n <= s)%Z
    /\ (Z.abs (2 * (n * 2 ^ s) - 2 * d * m) <= d)%Z
    /\ (fst (double_frac (round_binary64 n d)) * 2 ^ s
        = m * snd (double_frac (round_binary64 n d)))%Z
    /\ (0 < snd (double_frac (round_binary64 n d)))%Z
    /\ (expo (round_binary64 n d) <= 0)%Z.
Proof.
  intros Hn Hd Hl.
  pose proof (binary64_exp_le n d) as He.
  unfold round_binary64.
  replace (n <=? 0)%Z with false by (symmetry; apply Z.leb_gt; lia).
  set (e := binary64_exp n d) in *.
  assert (Hs : scale_frac n d e = (n * 2 ^ (- e), d)%Z).
  { unfold scale_frac; replace (0 <=? e)%Z with false by (symmetry; apply Z.leb_gt; lia).
    reflexivity. }
  rewrite Hs.
  set (m := round_half_even (n * 2 ^ (- e)) d).
  exists (- e)%Z, m.
  pose proof (round_half_even_spec (n * 2 ^ (- e)) d Hd) as Hm; fold m in Hm.
  assert (Hp : (0 < 2 ^ (- e))%Z) by (apply Z.pow_pos_nonneg; lia).
  split; [lia|]; split; [lia|]; split; [exact Hm|].
  destruct (m =? 2 ^ 53)%Z eqn:E53.
  - apply Z.eqb_eq in E53.
    unfold double_frac; cbn [mant expo fst snd].
    destruct (0 <=? e + 1)%Z eqn:Ee.
    + apply Z.leb_le in Ee; assert (He1 : e = (-1)%Z) by lia.
      rewrite He1, E53; cbn [fst snd]; split; [reflexivity|]; split; lia.
    + apply Z.leb_gt in Ee.
      replace (- e)%Z with (- (e + 1) + 1)%Z by lia.
      rewrite E53, Z.pow_add_r by lia.
      replace (2 ^ 53)%Z with (2 ^ 52 * 2 ^ 1)%Z by reflexivity.
      assert (0 < 2 ^ (- (e + 1)))%Z by (apply Z.pow_pos_nonneg; lia).
      cbn [fst snd]; split; [ring|]; split; lia.
  - unfold double_frac; cbn [mant expo fst snd].
    replace (0 <=? e)%Z with false by (symmetry; apply Z.leb_gt; lia).
    cbn [fst snd]; split; [ring|]; split; lia.
Qed.

Lemma digits_value_acc_nonneg (acc : Z) (s : string) :
  (0 <= acc)%Z -> str_forall is_digit s = true -> (0 <= digits_value_acc acc s)%Z.
Proof.
  revert acc; induction s as [|c s IH]; intros acc Ha H; [exact Ha|].
  cbn [str_forall] in H; apply andb_prop in H as [Hc Hs].
  cbn [digits_value_acc]; apply IH; [|exact Hs].
  unfold is_digit in Hc; apply andb_prop in Hc as [Hc _]; apply Nat.leb_le in Hc.
  unfold code in *; lia.
Qed.

(** An [int] below 2^51 converts to the double of exactly its value. *)
Lemma int_to_float_small (v : Z) :
  (0 <= v < 2 ^ 51)%Z ->
  exists x, int_to_float v = Ret x
            /\ fst (double_frac x) = (v * snd (double_frac x))%Z
            /\ (0 < snd (double_frac x))%Z.
Proof.
  intros Hv.
  destruct (Z.eq_dec v 0) as [->|Hv0].
  { exists (mk_double 0 0); split; [reflexivity|]; split; reflexivity. }
  assert (Hl : (Z.log2 v < 51)%Z) by (apply Z.log2_lt_pow2; lia).
  destruct (round_binary64_error v 1 ltac:(lia) ltac:(lia) ltac:(cbn; lia))
    as [s [m [Hs1 [_ [Hm [Hfr [Hb He]]]]]]].
  exists (round_binary64 v 1).
  assert (Hp : (0 < 2 ^ s)%Z) by (apply Z.pow_pos_nonneg; lia).
  assert (Hvm : (v * 2 ^ s = m)%Z) by lia.
  split.
  - unfold int_to_float; replace (971 <? expo (round_binary64 v 1))%Z with false
      by (symmetry; apply Z.ltb_ge; lia).
    reflexivity.
  - split; [|exact Hb].
    rewrite <- Hvm in Hfr.
    apply (Z.mul_reg_r _ _ (2 ^ s)); [lia|]; rewrite Hfr; ring.
Qed.

(** A double of exact value [v < 2^51], divided by 100.0 and printed with
    two decimals, gives the exact hundredths of [v]. *)
Lemma format_div100_exact (x : double) (v : Z) :
  (0 <= v < 2 ^ 51)%Z ->
  fst (double_frac x) = (v * snd (double_frac x))%Z -> (0 < snd (double_frac x))%Z ->
  format_2f (div100 x) = format_hundredths v.
Proof.
  intros Hv Ha Hb.
  unfold div100; destruct (double_frac x) as [a b]; cbn [fst snd] in Ha, Hb; subst a.
  destruct (Z.eq_dec v 0) as [->|Hv0]; [reflexivity|].
  assert (Hl : (Z.log2 v < 51)%Z) by (apply Z.log2_lt_pow2; lia).
  pose proof (Z.log2_mul_above v b ltac:(lia) ltac:(lia)) as Hab.
  pose proof (Z.log2_mul_below 100 b ltac:(lia) ltac:(lia)) as Hcb.
  change (Z.log2 100) with 6%Z in Hcb.
  destruct (round_binary64_error (v * b) (100 * b) ltac:(nia) ltac:(lia) ltac:(lia))
    as [s [m [Hs1 [Hs2 [Hm [Hfr [Hb2 _]]]]]]].
  unfold format_2f; destruct (double_frac (round_binary64 (v * b) (100 * b))) as [a2 b2].
  cbn [fst snd] in Hfr, Hb2.
  f_equal; apply round_half_even_unique; [exact Hb2|].
  assert (Hs7 : (7 <= s)%Z) by lia.
  assert (Hp : (128 <= 2 ^ s)%Z).
  { replace s with (7 + (s - 7))%Z by lia; rewrite Z.pow_add_r by lia.
    assert (0 < 2 ^ (s - 7))%Z by (apply Z.pow_pos_nonneg; lia).
    change (2 ^ 7)%Z with 128%Z; nia. }
  (* [|2 v 2^s - 200 m| <= 100] *)
  assert (H1 : (Z.abs (2 * (v * 2 ^ s) - 200 * m) <= 100)%Z).
  { replace (2 * (v * b * 2 ^ s) - 2 * (100 * b) * m)%Z
      with (b * (2 * (v * 2 ^ s) - 200 * m))%Z in Hm by ring.
    rewrite Z.abs_mul, (Z.abs_eq b) in Hm by lia; nia. }
  (* [2^s * (200 a2 - 2 b2 v) = b2 * (200 m - 2 v 2^s)] *)
  assert (H2 : (2 ^ s * (2 * (100 * a2) - 2 * b2 * v)
                = b2 * (200 * m - 2 * (v * 2 ^ s)))%Z).
  { replace (2 ^ s * (2 * (100 * a2) - 2 * b2 * v))%Z
      with (200 * (a2 * 2 ^ s) - 2 * b2 * (v * 2 ^ s))%Z by ring.
    rewrite Hfr; ring. }
  assert (H3 : (Z.abs (2 ^ s * (2 * (100 * a2) - 2 * b2 * v)) <= 100 * b2)%Z).
  { rewrite H2, Z.abs_mul, (Z.abs_eq b2) by lia.
    assert (Z.abs (200 * m - 2 * (v * 2 ^ s)) <= 100)%Z by lia; nia. }
  rewrite Z.abs_mul, (Z.abs_eq (2 ^ s)) in H3 by lia.
  nia.
Qed.

(** X8: A tuner frequency line "TFAN" and ASCII digits of value below 2^51
    is a frequency in hundredths when it has at least 4 digits ("TFAN09850"
    is "98.50"), exactly, as the float [int(freq_str) / 100.0] printed with
    two decimals rounds back to these digits; with fewer digits it is the
    plain integer.  Leading zeros are dropped; at most 4300 digits are
    accepted by [int]. *)
Theorem tuner_frequency_digits (p : OsdParser) (now : Q) (d : string)
    (Hp : pending_selected_line p = None) (Hd : all_digits d = true)
    (Hlen : (String.length d <= 4300)%nat) (Hv : (digits_value d < 2 ^ 51)%Z) :
  parse_response p now ("TFAN" ++ d)
  = (Ret (Some ("tuner_frequency_update",
                [("frequency", VStr (if Nat.leb 4 (String.length d)
                                     then format_hundredths (digits_value d)
                                     else Z_to_dec (digits_value d)))])), p).
Proof.
  status_line; unfold _parse_tuner_status; cbn [strip_prefix append]; eqb_lits.
  rewrite (py_strip_digits d Hd).
  pose proof Hd as Hd'; unfold all_digits in Hd'; apply andb_prop in Hd' as [Hne Hdg].
  apply negb_true_iff in Hne.
  rewrite Hne, (digits_isdigit d Hdg), Hdg, (digits_no_point d Hdg); cbn [negb andb].
  rewrite (py_int_digits_short d Hlen).
  destruct (Nat.leb 4 (String.length d)); cbn [andb]; [|reflexivity].
  pose proof (digits_value_acc_nonneg 0 d ltac:(lia) Hdg) as H0.
  destruct (int_to_float_small (digits_value d) ltac:(unfold digits_value in *; lia))
    as [x [Hx [Ha Hb]]].
  rewrite Hx, (format_div100_exact x (digits_value d) ltac:(unfold digits_value in *; lia)
                 Ha Hb).
  reflexivity.
Qed.

(** Witness for [tuner_frequency_digits]: "TFAN09850" and "TFAN830". *)
Lemma tuner_frequency_digits_witness :
  fst (parse_response (new_OsdParser 5) 0 ("TFAN" ++ "09850"))
    = Ret (Some ("tuner_frequency_update", [("frequency", VStr "98.50")]))
  /\ fst (parse_response (new_OsdParser 5) 0 ("TFAN" ++ "830"))
    = Ret (Some ("tuner_frequency_update", [("frequency", VStr "830")])).
Proof.
  rewrite (tuner_frequency_digits (new_OsdParser 5) 0 "09850" eq_refl eq_refl
             ltac:(cbn; lia) ltac:(vm_compute; reflexivity)).
  rewrite (tuner_frequency_digits (new_OsdParser 5) 0 "830" eq_refl eq_refl
             ltac:(cbn; lia) ltac:(vm_compute; reflexivity)).
  split; vm_compute; reflexivity.
Defined.

Lemma upper_not_digit (c : ascii) : is_upper c = true -> is_digit c = false.
Proof.
  unfold is_upper, is_digit; intros H; apply andb_prop in H as [H1 _].
  apply Nat.leb_le in H1.
  destruct (Nat.leb 48 (code c)); [|reflexivity].
  apply Nat.leb_gt; lia.
Qed.

Lemma digit_not_upper (c : ascii) : is_digit c = true -> is_upper c = false.
Proof.
  intros H; destruct (is_upper c) eqn:E; [|reflexivity].
  rewrite (upper_not_digit c E) in H; discriminate.
Qed.

(** X14: "Z2" followed by capital letters and slashes always gives an event:
    the power and mute states for ON, OFF, MUON and MUOFF, and otherwise an
    input source of that name, so no source can be called ON, OFF, MUON or
    MUOFF. *)
Theorem zone2_letters_classified (p : OsdParser) (now : Q) (s : string)
    (Hp : pending_selected_line p = None) (Hs : s <> "")
    (Hl : str_forall (fun c => is_upper c || Ascii.eqb c "/") s = true) :
  parse_response p now ("Z2" ++ s)
  = (Ret (Some
       (if String.eqb s "ON" || String.eqb s "OFF" then
          ("zone2_power_update", [("state", VStr (if String.eqb s "ON" then "on" else "off"))])
        else if String.eqb s "MUON" || String.eqb s "MUOFF" then
          ("zone2_mute_update", [("state", VStr (if String.eqb s "MUON" then "on" else "off"))])
        else ("zone2_input_source_update", [("source", VStr s)]))), p).
Proof.
  status_line; unfold _parse_zone2; cbn [String.eqb append]; eqb_lits.
  destruct (String.eqb s "ON" || String.eqb s "OFF"); [reflexivity|].
  destruct (String.eqb s "MUON" || String.eqb s "MUOFF"); [reflexivity|].
  destruct s as [|c s']; [congruence|].
  assert (Hc : is_digit c = false).
  { cbn [str_forall] in Hl; apply andb_prop in Hl as [Hc _].
    destruct (is_upper c) eqn:Eu; [exact (upper_not_digit c Eu)|].
    cbn [orb] in Hc; apply Ascii.eqb_eq in Hc; subst c; reflexivity. }
  unfold re_prefix; cbn [strip_prefix]; eqb_lits.
  unfold digits_eol, class_plus_eol; rewrite (span_all _ _ Hl).
  cbn [span]; rewrite Hc; reflexivity.
Qed.

(** Witness for [zone2_letters_classified]: "Z2CD" is the CD input. *)
Lemma zone2_letters_classified_witness :
  fst (parse_response (new_OsdParser 5) 0 ("Z2" ++ "CD"))
  = Ret (Some ("zone2_input_source_update", [("source", VStr "CD")])).
Proof.
  rewrite (zone2_letters_classified (new_OsdParser 5) 0 "CD" eq_refl ltac:(discriminate)
             eq_refl).
  reflexivity.
Defined.

Lemma opt_space_sp_digits (sp d : string) :
  (sp = "" \/ sp = " ") -> all_digits d = true -> opt_space digits_eol (sp ++ d) = Some d.
Proof.
  intros [->| ->] Hd; [exact (opt_space_digits_all d Hd)|].
  cbn [append]; unfold opt_space; change (py_isspace " ") with true; cbn iota.
  rewrite (digits_eol_all d Hd); reflexivity.
Qed.

Lemma sp_digits_head (sp d : string) :
  (sp = "" \/ sp = " ") -> all_digits d = true ->
  exists c r, sp ++ d = String c r /\ is_upper c = false.
Proof.
  intros [->| ->] Hd.
  - destruct (all_digits_cons d Hd) as [c [d' [-> Hc]]].
    exists c, d'; split; [reflexivity | exact (digit_not_upper c Hc)].
  - exists " "%char, d; split; reflexivity.
Qed.

Lemma match_channel_split (ch sp d : string)
    (Hlen : (1 <= String.length ch <= 3)%nat) (Hch : str_forall is_upper ch = true)
    (Hsp : sp = "" \/ sp = " ") (Hd : all_digits d = true) :
  match_channel (ch ++ sp ++ d) = Some (ch, d).
Proof.
  pose proof (opt_space_sp_digits sp d Hsp Hd) as Hk.
  destruct (sp_digits_head sp d Hsp Hd) as [c0 [r0 [Er Hc0]]].
  unfold match_channel; rewrite Er.
  destruct ch as [|a1 [|a2 [|a3 [|a4 ch]]]]; cbn [String.length] in Hlen; try lia;
    cbn [str_forall] in Hch; repeat (apply andb_prop in Hch as [? Hch]);
    cbn [take_upper append]; rewrite ?Hc0;
    repeat match goal with H : is_upper _ = true |- _ => rewrite H; clear H end;
    cbn iota beta; rewrite <- Er, Hk; reflexivity.
Qed.

Lemma eqb_digits_literal (x d lit : string) :
  all_digits d = true -> str_forall (fun c => negb (is_digit c)) lit = true ->
  String.eqb (x ++ d) lit = false.
Proof.
  intros Hd Hl; apply String.eqb_neq; intros E; subst lit.
  rewrite str_forall_app in Hl; apply andb_prop in Hl as [_ Hl].
  destruct (all_digits_cons d Hd) as [c [d' [-> Hc]]].
  cbn [str_forall] in Hl; rewrite Hc in Hl; discriminate.
Qed.

(** X15: A channel level line "CV", a channel name of one to three capital
    letters, an optional space and digits reports that whole channel name
    and the level relative to 50 (half steps for three digits). *)
Theorem channel_level_names (p : OsdParser) (now : Q) (ch sp d : string)
    (Hp : pending_selected_line p = None)
    (Hlen : (1 <= String.length ch <= 3)%nat) (Hch : str_forall is_upper ch = true)
    (Hsp : sp = "" \/ sp = " ") (Hd : all_digits d = true) :
  parse_response p now ("CV" ++ ch ++ sp ++ d)
  = (Ret (Some ("channel_level_update",
                [("channel", VStr ch); ("value", VNum (_parse_value_with_half_step d - 50))])),
     p).
Proof.
  assert (Hne : String.eqb ("CV" ++ (ch ++ (sp ++ d))) "CVEND" = false).
  { rewrite str_app_assoc, str_app_assoc; apply eqb_digits_literal; [exact Hd | reflexivity]. }
  cbn [append] in Hne.
  status_line; unfold _parse_channel_level; rewrite Hne.
  unfold re_prefix; cbn [strip_prefix]; eqb_lits.
  rewrite (match_channel_split ch sp d Hlen Hch Hsp Hd); reflexivity.
Qed.

(** Witness for [channel_level_names]: "CVSBL 55" is the SBL channel at
    +5. *)
Lemma channel_level_names_witness :
  fst (parse_response (new_OsdParser 5) 0 ("CV" ++ "SBL" ++ " " ++ "55"))
  = Ret (Some ("channel_level_update", [("channel", VStr "SBL"); ("value", VNum (55 - 50))])).
Proof.
  rewrite (channel_level_names (new_OsdParser 5) 0 "SBL" " " "55" eq_refl
             ltac:(cbn; lia) eq_refl (or_intror eq_refl) eq_refl).
  reflexivity.
Defined.

(** ** The parser factories *)

Lemma strip_prefix_some (p s x : string) : strip_prefix p s = Some x -> s = p ++ x.
Proof.
  revert s; induction p as [|a p IH]; intros s H; [injection H as ->; reflexivity|].
  destruct s as [|b s]; [discriminate|]; cbn [strip_prefix] in H.
  destruct (Ascii.eqb a b) eqn:E; [|discriminate].
  apply Ascii.eqb_eq in E; subst b; cbn [append]; rewrite (IH s H); reflexivity.
Qed.

(** X16: A parser made by [_create_on_off_parser prefix on_val off_val] (with
    distinct [on_val] and [off_val]) accepts exactly the two lines [prefix]
    [on_val] and [prefix] [off_val]: the first is the state "on", the second
    "standby" when [off_val] is "STANDBY" and "off" otherwise. *)
Theorem on_off_parser_accepts_exactly (prefix on_val off_val r : string)
    (Hne : on_val <> off_val) :
  _create_on_off_parser prefix on_val off_val (prefix ++ on_val) = Some [("state", VStr "on")]
  /\ _create_on_off_parser prefix on_val off_val (prefix ++ off_val)
     = Some [("state", VStr (if String.eqb off_val "STANDBY" then "standby" else "off"))]
  /\ (_create_on_off_parser prefix on_val off_val r <> None ->
      r = prefix ++ on_val \/ r = prefix ++ off_val).
Proof.
  unfold _create_on_off_parser.
  split; [rewrite strip_prefix_app, String.eqb_refl; reflexivity|].
  split.
  { rewrite strip_prefix_app, String.eqb_refl.
    apply String.eqb_neq in Hne; rewrite String.eqb_sym, Hne; reflexivity. }
  destruct (strip_prefix prefix r) as [x|] eqn:E; [|congruence].
  apply strip_prefix_some in E; subst r.
  destruct (String.eqb x on_val) eqn:E1; [apply String.eqb_eq in E1; subst; left; reflexivity|].
  destruct (String.eqb x off_val) eqn:E2; [apply String.eqb_eq in E2; subst; right; reflexivity|].
  congruence.
Qed.

(** Witness for [on_off_parser_accepts_exactly]: the power parser, whose
    off value is "STANDBY". *)
Lemma on_off_parser_accepts_exactly_witness :
  "ON" <> "STANDBY"
  /\ _create_on_off_parser "PW" "ON" "STANDBY" ("PW" ++ "STANDBY")
     = Some [("state", VStr "standby")].
Proof.
  split; [discriminate|].
  exact (proj1 (proj2 (on_off_parser_accepts_exactly "PW" "ON" "STANDBY" "PWOFF"
                         ltac:(discriminate)))).
Defined.

Lemma alt_then_in (alts : list string) (k : string -> bool) (r a : string) :
  alt_then alts k r = Some a -> In a alts.
Proof.
  induction alts as [|x alts IH]; cbn [alt_then]; [discriminate|].
  destruct (strip_prefix x r); [destruct (k s)|]; intros H;
    [injection H as <-; left; reflexivity | right; apply IH, H | right; apply IH, H].
Qed.

Lemma opt_space_some {A} (k : string -> option A) (r : string) (a : A) :
  opt_space k r = Some a -> exists r', k r' = Some a.
Proof.
  unfold opt_space; destruct r as [|c r']; [eauto|].
  destruct (py_isspace c); [destruct (k r') eqn:E|]; intros H; eauto.
  injection H as <-; eauto.
Qed.

Lemma req_space_some {A} (k : string -> option A) (r : string) (a : A) :
  req_space k r = Some a -> exists r', k r' = Some a.
Proof.
  unfold req_space; destruct r as [|c r']; [discriminate|].
  destruct (py_isspace c); [eauto | discriminate].
Qed.

Lemma re_prefix_some {A} (pre : string) (k : string -> option A) (r : string) (a : A) :
  re_prefix pre k r = Some a -> exists r', k r' = Some a.
Proof. unfold re_prefix; destruct (strip_prefix pre r); [eauto | discriminate]. Qed.

(** X17: M-DAX, Dynamic Volume and DRC states are always normalised: the
    parsers never report the receiver's short codes ("med", "hi", "lit",
    "hev", "mid"), only the full names. *)
Theorem multi_state_parsers_normalize (r st : string) :
  (_parse_mdax r = Some [("state", VStr st)] -> In st ["off"; "low"; "medium"; "high"])
  /\ (_parse_dynamic_volume r = Some [("state", VStr st)] ->
      In st ["off"; "light"; "medium"; "heavy"])
  /\ (_parse_dynamic_range_compression r = Some [("state", VStr st)] ->
      In st ["off"; "low"; "medium"; "high"]).
Proof.
  unfold _parse_mdax, _parse_dynamic_volume, _parse_dynamic_range_compression,
    _create_multi_state_parser, alt_eol.
  split; [|split];
  match goal with |- context [match ?m with Some _ => _ | None => None end] =>
    destruct m as [g|] eqn:E; [|discriminate] end;
  apply re_prefix_some in E as [r1 E];
  first [apply opt_space_some in E as [r2 E] | apply req_space_some in E as [r2 E]];
  apply alt_then_in in E;
  repeat destruct E as [<-|E]; try destruct E;
  intros H; vm_compute in H; injection H as <-; cbn; tauto.
Qed.

(** Witness for [multi_state_parsers_normalize]: "PSMDAX MED" is
    "medium". *)
Lemma multi_state_parsers_normalize_witness :
  _parse_mdax "PSMDAX MED" = Some [("state", VStr "medium")]
  /\ In "medium" ["off"; "low"; "medium"; "high"].
Proof.
  split; [vm_compute; reflexivity|].
  exact (proj1 (multi_state_parsers_normalize "PSMDAX MED" "medium")
           ltac:(vm_compute; reflexivity)).
Defined.

(** ** The OSD lines *)

(** X18: The pagination line "NSE8" never buffers a fragment nor changes the
    screen's mode, title, cursor or pending slot (only the inactivity
    check runs); it reports its text, leading '$' flags and control
    characters removed, as a station info update when that text is not
    empty, and gives no event otherwise. *)
Theorem station_info_line (p : OsdParser) (now : Q) (raw : string) :
  parse_response p now ("NSE8" ++ raw)
  = (let text := _clean_osd_text (lstrip_char PLAYING_ITEM_CHAR raw) in
     if String.eqb text "" then Ret None
     else Ret (Some ("station_info_update", [("text", VStr text)])),
     _reset_context_if_timed_out p now).
Proof.
  unfold parse_response; rewrite osd_parse_nse_line by reflexivity.
  unfold osd_parse_nse.
  replace (match_nse ("NSE8" ++ raw)) with (Some (8%Z, raw)) by reflexivity.
  cbn [Z.eqb Pos.eqb negb]; cbv zeta.
  destruct (String.eqb (_clean_osd_text (lstrip_char PLAYING_ITEM_CHAR raw)) "");
    cbn [negb]; [|reflexivity].
  dispatch_lits; reflexivity.
Qed.

Lemma code_digit_value (d : ascii) (n : nat) :
  (Z.of_nat (code d) - 48 = Z.of_nat n)%Z -> d = chr (48 + n).
Proof.
  intros H; unfold chr; rewrite <- (ascii_nat_embedding d); f_equal.
  unfold code in H; lia.
Qed.

(** X19: In menu mode, within the inactivity timeout, a content line "NSE",
    a slot digit other than 0 and 8 (slot 9 included), a signifier byte
    and text (not all blank) is a menu item update for that slot when the
    signifier is the selected-item byte (0x04) or one of the menu-item bytes
    (0x05, 0x02, 0x06, 0x0A, 0x0E); it is selected exactly for 0x04, which
    also moves the stored cursor to the slot.  Any other first byte gives no
    event.  Only the timestamp (and the cursor) change. *)
Theorem menu_mode_content_line (p : OsdParser) (now : Q) (d c : ascii) (s : string)
    (Hm : screen_mode (context p) = Some MODE_MENU)
    (Ht : Qle_bool (now - last_update_time (context p)) (context_timeout p) = true)
    (Hd : is_digit d = true) (H0 : d <> "0"%char) (H8 : d <> "8"%char)
    (Hb : py_strip (String c s) <> "") :
  parse_response p now ("NSE" ++ String d (String c s))
  = let k := (Z.of_nat (code d) - 48)%Z in
    let p1 := set_context p (set_time (context p) now) in
    if existsb (Ascii.eqb c) [SELECTED_ITEM_CHAR; MENU_ITEM_CHAR; CONTEXT_MENU_CHAR;
                              chr 6; chr 10; chr 14]
    then (Ret (Some ("osd_menu_item_update",
                     [("line", VInt k); ("text", VStr (_clean_osd_text s));
                      ("is_selected", VBool (Ascii.eqb c SELECTED_ITEM_CHAR))])),
          if Ascii.eqb c SELECTED_ITEM_CHAR then set_context p1 (set_cursor (context p1) k)
          else p1)
    else (Ret None, p1).
Proof.
  assert (Hk0 : ((Z.of_nat (code d) - 48) =? 0)%Z = false).
  { apply Z.eqb_neq; intros E; apply H0, (code_digit_value d 0); exact E. }
  assert (Hk8 : ((Z.of_nat (code d) - 48) =? 8)%Z = false).
  { apply Z.eqb_neq; intros E; apply H8, (code_digit_value d 8); exact E. }
  assert (Hdisp : dispatch PARSER_CONFIG ("NSE" ++ String d (String c s)) = Ret None).
  { repeat progress (dispatch_lits; digit_neqs d Hd); reflexivity. }
  unfold parse_response; rewrite osd_parse_nse_line by reflexivity.
  unfold osd_parse_nse.
  replace (match_nse ("NSE" ++ String d (String c s)))
    with (Some (Z.of_nat (code d) - 48, String c s)%Z)
    by (unfold match_nse; cbn [strip_prefix append]; eqb_lits; rewrite Hd; reflexivity).
  unfold _reset_context_if_timed_out; rewrite Ht; cbn [negb]; cbv zeta.
  rewrite Hk0, Hk8.
  cbn [set_context set_time context screen_mode]; rewrite Hm; cbn [mode_in_menus andb].
  apply String.eqb_neq in Hb; rewrite Hb.
  cbn [set_context set_time context screen_mode]; rewrite Hm.
  unfold _handle_menu_line; cbn [startswith str1 tail1 SPECIAL_MENU_ITEM_CHARS existsb].
  rewrite (Ascii.eqb_sym SELECTED_ITEM_CHAR c), (Ascii.eqb_sym MENU_ITEM_CHAR c),
    (Ascii.eqb_sym CONTEXT_MENU_CHAR c).
  destruct (Ascii.eqb c SELECTED_ITEM_CHAR), (Ascii.eqb c MENU_ITEM_CHAR),
    (Ascii.eqb c CONTEXT_MENU_CHAR), (Ascii.eqb c (chr 6)), (Ascii.eqb c (chr 10)),
    (Ascii.eqb c (chr 14)); cbn [andb orb]; try rewrite Hdisp; reflexivity.
Qed.

(** Witness for [menu_mode_content_line]: slot 9 with the selected-item
    byte. *)
Lemma menu_mode_content_line_witness :
  let p := mk_osd 5 (mk_context (Some MODE_MENU) 0 "Setup Menu" (-1) []) None in
  fst (parse_response p 1 ("NSE" ++ String "9" (String SELECTED_ITEM_CHAR "Foo")))
  = Ret (Some ("osd_menu_item_update",
               [("line", VInt 9); ("text", VStr "Foo"); ("is_selected", VBool true)]))
  /\ cursor_line (context (snd (parse_response p 1
                                  ("NSE" ++ String "9" (String SELECTED_ITEM_CHAR "Foo")))))
     = 9%Z.
Proof.
  intros p.
  rewrite (menu_mode_content_line p 1 "9" SELECTED_ITEM_CHAR "Foo" eq_refl eq_refl eq_refl
             ltac:(discriminate) ltac:(discriminate) ltac:(vm_compute; discriminate)).
  split; vm_compute; reflexivity.
Defined.

(** A menu slot the parser can store: 1 to 9 but not 8 (the title line
    0 and the station line 8 never reach the menu handlers). *)
Definition valid_slot (z : Z) : Prop := (1 <= z <= 9)%Z /\ z <> 8%Z.

(** The cursor is -1 or a valid slot, a pending fragment is for a valid
    slot, and the menu item list is empty. *)
Definition osd_slots_ok (p : OsdParser) : Prop :=
  (cursor_line (context p) = (-1)%Z \/ valid_slot (cursor_line (context p)))
  /\ match pending_selected_line p with None => True | Some n => valid_slot n end
  /\ menu_items (context p) = [].

Lemma match_nse_range (r raw : string) (k : Z) :
  match_nse r = Some (k, raw) -> (0 <= k <= 9)%Z.
Proof.
  unfold match_nse; destruct (strip_prefix "NSE" r) as [[|d raw']|]; try discriminate.
  destruct (is_digit d) eqn:Hd; [|discriminate].
  intros H; injection H as <- _.
  unfold is_digit in Hd; apply andb_prop in Hd as [A B].
  apply Nat.leb_le in A, B; lia.
Qed.

Lemma osd_parse_nse_slots (p : OsdParser) (now : Q) (r : string) :
  osd_slots_ok p -> osd_slots_ok (snd (osd_parse_nse p now r)).
Proof.
  intros H; unfold osd_parse_nse.
  destruct (match_nse r) as [[k raw]|] eqn:Em; [|exact H].
  pose proof (match_nse_range _ _ _ Em) as Hk.
  assert (H1 : osd_slots_ok (_reset_context_if_timed_out p now)).
  { unfold _reset_context_if_timed_out; destruct (negb _); exact H. }
  cbv zeta; revert H1; generalize (_reset_context_if_timed_out p now); intros p1 H1.
  destruct (k =? 0)%Z eqn:E0.
  { unfold _handle_title_line; destruct (negb (String.eqb _ _)); cbn [snd].
    - split; [left; reflexivity | split; exact I || reflexivity].
    - exact H1. }
  destruct (k =? 8)%Z eqn:E8.
  { destruct (negb _); exact H1. }
  apply Z.eqb_neq in E0, E8.
  destruct (mode_in_menus _ && _).
  { destruct H1 as [A [_ C]]; split; [exact A | split; [|exact C]].
    cbn; unfold valid_slot; lia. }
  assert (H2 : osd_slots_ok (match screen_mode (context p1) with
                             | None => set_context p1 (set_mode (context p1) (infer_mode raw))
                             | Some _ => p1 end))
    by (destruct (screen_mode (context p1)); exact H1).
  revert H2; generalize (match screen_mode (context p1) with
                         | None => set_context p1 (set_mode (context p1) (infer_mode raw))
                         | Some _ => p1 end); intros p2 H2.
  destruct (screen_mode (context p2)) as [[| |]|]; try exact H2.
  unfold _handle_menu_line; cbv zeta.
  destruct (startswith (str1 SELECTED_ITEM_CHAR) raw);
    destruct (_ || _); cbn [orb snd]; try exact H2;
    destruct H2 as [_ [B C]]; (split; [right; unfold valid_slot; cbn; lia | split; assumption]).
Qed.

(** X20: The parser's slots stay in range across any line: the stored cursor is
    always -1 or a slot 1..9 other than 8, a buffered selected-item
    fragment is for such a slot, and the menu item list is never filled.
    With the fresh parser, which satisfies this, slot 9 is possible. *)
Theorem osd_slots_stay_valid (p : OsdParser) (now : Q) (r : string) :
  osd_slots_ok p -> osd_slots_ok (snd (parse_response p now r)).
Proof.
  intros H; rewrite parse_response_state; unfold osd_parse.
  destruct (pending_selected_line p) as [n|] eqn:Ep;
    [|apply osd_parse_nse_slots; exact H].
  destruct (negb (startswith "NSE" r)); [|apply osd_parse_nse_slots; exact H].
  destruct H as [A [_ C]]; split; [exact A | split; [exact I | exact C]].
Qed.

(** Witness for [osd_slots_stay_valid]: the fresh parser, and the cursor at
    slot 9 after a selected line 9 in a menu. *)
Lemma osd_slots_stay_valid_witness :
  let p := mk_osd 5 (mk_context (Some MODE_MENU) 0 "Setup Menu" (-1) []) None in
  osd_slots_ok (new_OsdParser 5)
  /\ osd_slots_ok (snd (parse_response p 1
                          ("NSE" ++ String "9" (String SELECTED_ITEM_CHAR "Foo"))))
  /\ cursor_line (context (snd (parse_response p 1
                          ("NSE" ++ String "9" (String SELECTED_ITEM_CHAR "Foo"))))) = 9%Z.
Proof.
  intros p.
  assert (Hp : osd_slots_ok p).
  { split; [left; reflexivity | split; [exact I | reflexivity]]. }
  split; [split; [left; reflexivity | split; [exact I | reflexivity]]|].
  split; [apply (osd_slots_stay_valid p 1 _ Hp)|].
  vm_compute; reflexivity.
Defined.

(** ** [_clean_osd_text] *)

(** The first character, if any, is not whitespace. *)
Definition head_nonspace (s : string) : Prop :=
  match s with EmptyString => True | String c _ => py_isspace c = false end.

Lemma str_filter_forall (f : ascii -> bool) (s : string) :
  str_forall f (str_filter f s) = true.
Proof.
  induction s as [|c s IH]; [reflexivity|]; cbn [str_filter].
  destruct (f c) eqn:Hc; [cbn [str_forall]; rewrite Hc, IH; reflexivity | exact IH].
Qed.

Lemma str_filter_forall_id (f : ascii -> bool) (s : string) :
  str_forall f s = true -> str_filter f s = s.
Proof.
  induction s as [|c s IH]; [reflexivity|]; cbn [str_forall str_filter].
  intros H; apply andb_prop in H as [Hc Hs]; rewrite Hc, (IH Hs); reflexivity.
Qed.

Lemma py_lstrip_forall (f : ascii -> bool) (s : string) :
  str_forall f s = true -> str_forall f (py_lstrip s) = true.
Proof.
  induction s as [|c s IH]; [reflexivity|]; cbn [py_lstrip].
  intros H; destruct (py_isspace c); [|exact H].
  cbn [str_forall] in H; apply andb_prop in H as [_ Hs]; exact (IH Hs).
Qed.

Lemma py_rstrip_forall (f : ascii -> bool) (s : string) :
  str_forall f s = true -> str_forall f (py_rstrip s) = true.
Proof.
  induction s as [|c s IH]; [reflexivity|]; cbn [py_rstrip str_forall].
  intros H; apply andb_prop in H as [Hc Hs]; specialize (IH Hs).
  destruct (py_rstrip s) as [|c' r]; cbn [str_forall str1].
  - destruct (py_isspace c); [reflexivity|].
    cbn [str1 str_forall]; rewrite Hc; reflexivity.
  - rewrite Hc; exact IH.
Qed.

Lemma py_lstrip_head (s : string) : head_nonspace (py_lstrip s).
Proof.
  induction s as [|c s IH]; [exact I|]; cbn [py_lstrip].
  destruct (py_isspace c) eqn:Hc; [exact IH | exact Hc].
Qed.

Lemma py_lstrip_head_id (s : string) : head_nonspace s -> py_lstrip s = s.
Proof.
  destruct s as [|c s]; [reflexivity|]; cbn [head_nonspace py_lstrip].
  intros Hc; rewrite Hc; reflexivity.
Qed.

Lemma py_rstrip_head (s : string) : head_nonspace s -> head_nonspace (py_rstrip s).
Proof.
  destruct s as [|c s]; [intros; exact I|]; cbn [head_nonspace py_rstrip].
  intros Hc; destruct (py_rstrip s); cbn [str1]; [rewrite Hc|]; exact Hc.
Qed.

Lemma py_rstrip_idem (s : string) : py_rstrip (py_rstrip s) = py_rstrip s.
Proof.
  induction s as [|c s IH]; [reflexivity|]; cbn [py_rstrip].
  destruct (py_rstrip s) as [|c' r] eqn:Er.
  - destruct (py_isspace c) eqn:Hc; [reflexivity|].
    cbn [str1 py_rstrip]; rewrite Hc; reflexivity.
  - change (match py_rstrip (String c' r) with
            | EmptyString => if py_isspace c then EmptyString else str1 c
            | r' => String c r' end = String c (String c' r)).
    rewrite IH; reflexivity.
Qed.

Lemma py_strip_idem (s : string) : py_strip (py_strip s) = py_strip s.
Proof.
  unfold py_strip.
  rewrite (py_lstrip_head_id _ (py_rstrip_head _ (py_lstrip_head s))).
  apply py_rstrip_idem.
Qed.

(** X21: [_clean_osd_text] returns text with no control character (no byte
    below 0x20 and no 0x7F), with no leading or trailing whitespace, and
    cleaning it again changes nothing. *)
Theorem clean_osd_text_normal (s : string) :
  str_forall (fun c => negb (is_control c)) (_clean_osd_text s) = true
  /\ py_strip (_clean_osd_text s) = _clean_osd_text s
  /\ _clean_osd_text (_clean_osd_text s) = _clean_osd_text s.
Proof.
  assert (Hf : str_forall (fun c => negb (is_control c)) (_clean_osd_text s) = true).
  { unfold _clean_osd_text, py_strip.
    apply py_rstrip_forall, py_lstrip_forall, str_filter_forall. }
  split; [exact Hf|].
  assert (Hs : py_strip (_clean_osd_text s) = _clean_osd_text s).
  { unfold _clean_osd_text at 1 2; apply py_strip_idem. }
  split; [exact Hs|].
  unfold _clean_osd_text at 1; rewrite (str_filter_forall_id _ _ Hf); exact Hs.
Qed.

(** X22: [int] refuses a string of more than 4300 digits: a sleep timer
    line, an LFE, bass or treble line and a tuner frequency line with that
    many digits raise [ValueError] out of [parse_response], and the parser
    state is unchanged. *)
Theorem int_digit_limit_raises (p : OsdParser) (now : Q) (d : string)
    (Hp : pending_selected_line p = None) (Hd : all_digits d = true)
    (Hlen : (4300 < String.length d)%nat) :
  parse_response p now ("SLP" ++ d) = (Raise "ValueError", p)
  /\ parse_response p now ("PSLFE" ++ d) = (Raise "ValueError", p)
  /\ parse_response p now ("PSBAS" ++ d) = (Raise "ValueError", p)
  /\ parse_response p now ("PSTRE" ++ d) = (Raise "ValueError", p)
  /\ parse_response p now ("TFAN" ++ d) = (Raise "ValueError", p).
Proof.
  split; [|split; [|split; [|split]]].
  - status_line; unfold _parse_sleep_timer.
    destruct (all_digits_cons d Hd) as [c [d' [Hcd Hc]]].
    rewrite Hcd in Hd, Hlen |- *.
    cbn [String.eqb append]; eqb_lits; digit_neqs c Hc; cbn [andb].
    unfold re_prefix; cbn [strip_prefix]; eqb_lits; rewrite (digits_eol_all _ Hd).
    unfold int_payload; rewrite (py_int_digits_long _ Hlen); reflexivity.
  - status_line; unfold _create_numeric_parser, re_prefix; cbn [strip_prefix]; eqb_lits.
    rewrite (opt_space_digits_all d Hd).
    unfold int_payload; rewrite (py_int_digits_long _ Hlen); reflexivity.
  - status_line; unfold _create_numeric_parser, re_prefix; cbn [strip_prefix]; eqb_lits.
    rewrite (opt_space_digits_all d Hd).
    unfold int_payload; rewrite (py_int_digits_long _ Hlen); reflexivity.
  - status_line; unfold _create_numeric_parser, re_prefix; cbn [strip_prefix]; eqb_lits.
    rewrite (opt_space_digits_all d Hd).
    unfold int_payload; rewrite (py_int_digits_long _ Hlen); reflexivity.
  - status_line; unfold _parse_tuner_status; cbn [strip_prefix append]; eqb_lits.
    rewrite (py_strip_digits d Hd).
    pose proof Hd as Hd'; unfold all_digits in Hd'; apply andb_prop in Hd' as [Hne Hdg].
    apply negb_true_iff in Hne.
    rewrite Hne, (digits_isdigit d Hdg), Hdg; cbn [negb andb].
    rewrite (py_int_digits_long d Hlen); reflexivity.
Qed.

(** Witness for X22: 4301 digits "1". *)
Lemma int_digit_limit_raises_witness :
  let d := String.concat "" (List.repeat "1" 4301) in
  all_digits d = true /\ (4300 < String.length d)%nat
  /\ parse_response (new_OsdParser 5) 0 ("SLP" ++ d) = (Raise "ValueError", new_OsdParser 5)
  /\ parse_response (new_OsdParser 5) 0 ("TFAN" ++ d) = (Raise "ValueError", new_OsdParser 5).
Proof.
  intros d.
  assert (Hd : all_digits d = true) by (vm_compute; reflexivity).
  assert (Hl : (4300 < String.length d)%nat) by (vm_compute; lia).
  destruct (int_digit_limit_raises (new_OsdParser 5) 0 d eq_refl Hd Hl)
    as [H1 [_ [_ [_ H5]]]].
  split; [exact Hd|]; split; [exact Hl|]; split; [exact H1|exact H5].
Defined.
